(** * MIDIator: a shallow embedding of the event-translation engine

    The development follows the four Python modules of the repository:

    - [src/windows/windows_enums.py]  (module [windows_enums])
    - [src/windows/windows_io.py]     (the three senders, as trace events)
    - [src/midi/midi_io.py]           (module [midi_io])
    - [src/midiator.py]               (module [midiator])

    Python [int]s are unbounded and are modelled by [Z]; the sensitivity
    and the two components of the mouse vector are ints, as in the default
    configuration.  Python [float]s are IEEE-754 binary64 values and are
    modelled by [spec_float] with the operations of [SpecFloat] at
    precision 53; they occur in the scaling of [mouse_handler].
    Dictionaries are [gmap]s.
    Effects (stdout, calls into [windows_io], sleeping, exceptions and the
    mutation of [self.mouse_vector]) are made explicit by a small
    state/trace/exception monad. *)

From Stdlib Require Import ZArith String Ascii List Bool Lia SpecFloat.
From Stdlib Require Import Reals Lra Machin.
From stdpp Require Import base option list gmap pretty.

Open Scope string_scope.
Open Scope list_scope.
Open Scope Z_scope.

(** ** Python strings *)

Module PyStr.

(** [c.lower()] on one ASCII character; other bytes are left alone. *)
Definition lower_ascii (c : ascii) : ascii :=
  let n := N_of_ascii c in
  if ((65 <=? n) && (n <=? 90))%N then ascii_of_N (n + 32) else c.

(** [s.lower()] *)
Fixpoint lower (s : string) : string :=
  match s with
  | EmptyString => EmptyString
  | String c t => String (lower_ascii c) (lower t)
  end.

(** [s.upper()], used only to phrase case-insensitivity. *)
Definition upper_ascii (c : ascii) : ascii :=
  let n := N_of_ascii c in
  if ((97 <=? n) && (n <=? 122))%N then ascii_of_N (n - 32) else c.

Fixpoint upper (s : string) : string :=
  match s with
  | EmptyString => EmptyString
  | String c t => String (upper_ascii c) (upper t)
  end.

(** [needle in hay] for two strings: [needle] occurs at some offset. *)
Fixpoint contains (needle hay : string) : bool :=
  String.prefix needle hay ||
  match hay with
  | EmptyString => false
  | String _ t => contains needle t
  end.

(** [n] spaces. *)
Fixpoint spaces (n : nat) : string :=
  match n with
  | O => EmptyString
  | S k => String " " (spaces k)
  end.

(** [format(s, str(width))] for a string: left-aligned, padded with
    spaces up to [width], never truncated. *)
Definition format_width (s : string) (width : nat) : string :=
  s +:+ spaces (width - String.length s).

(** [str(n)] for an int. *)
Definition str_int (n : Z) : string := pretty n.

End PyStr.

(** ** Python exceptions and numbers *)

Inductive exn : Type :=
| ValueError
| OverflowError
| KeyError
| SystemError      (* rtmidi.SystemError, raised by the MIDI backend *)
| OSError
| SystemExit (code : Z).

Inductive outcome (A : Type) : Type :=
| Ret (a : A)
| Raise (e : exn).
Arguments Ret {A} a.
Arguments Raise {A} e.

Module PyNum.

Definition prec : Z := 53.
Definition emax : Z := 1024.

Definition float : Type := spec_float.

(** [float(z)]: round to nearest, ties to even; an int beyond the range
    of binary64 raises [OverflowError]. *)
Definition float_of_int (z : Z) : outcome float :=
  match binary_normalize prec emax z 0 false with
  | S754_infinity _ => Raise OverflowError
  | f => Ret f
  end.

(** [a * b] on two floats. *)
Definition float_mul (a b : float) : float := SFmul prec emax a b.

(** [int(f)]: truncation toward zero; NaN and the infinities raise. *)
Definition int_of_float (f : float) : outcome Z :=
  match f with
  | S754_zero _ => Ret 0
  | S754_finite s m e =>
      let mag := match e with
                 | Z0 => Zpos m
                 | Zpos p => Zpos m * 2 ^ Zpos p
                 | Zneg p => Zpos m / 2 ^ Zpos p
                 end in
      Ret (if s then - mag else mag)
  | S754_infinity _ => Raise OverflowError
  | S754_nan => Raise ValueError
  end.

(** The real number a finite float stands for (0 for the others). *)
Definition real_value (f : float) : R :=
  match f with
  | S754_finite s m e => (IZR (if s then Zneg m else Zpos m) * powerRZ 2 e)%R
  | _ => 0%R
  end.

(** A value held by a local variable of [mouse_handler]: the components
    start as ints and become floats when they are scaled. *)
Inductive pynum : Type :=
| PyInt (z : Z)
| PyFloat (f : float).

(** [a * b] *)
Definition mul (a b : pynum) : outcome pynum :=
  match a, b with
  | PyInt x, PyInt y => Ret (PyInt (x * y))
  | PyInt x, PyFloat g =>
      match float_of_int x with
      | Ret f => Ret (PyFloat (float_mul f g))
      | Raise e => Raise e
      end
  | PyFloat f, PyInt y =>
      match float_of_int y with
      | Ret g => Ret (PyFloat (float_mul f g))
      | Raise e => Raise e
      end
  | PyFloat f, PyFloat g => Ret (PyFloat (float_mul f g))
  end.

(** [int(a)] *)
Definition int (a : pynum) : outcome Z :=
  match a with
  | PyInt z => Ret z
  | PyFloat f => int_of_float f
  end.

(** [math.sin(45)].  The argument of [math.sin] is in radians; the
    binary64 result is 0x1.b3a9a073d9b03p-1 = 0.8509035245341184. *)
Definition sin_45_radians : float := S754_finite false 7664257592040195 (-53).

(** The same for 45 degrees, [math.sin(math.radians(45))]:
    0x1.6a09e667f3bccp-1 = 0.7071067811865475.  The program never
    computes this value; it is what the name [sin_45] promises. *)
Definition sin_45_degrees : float := S754_finite false 6369051672525772 (-53).

End PyNum.

(** ** [src/windows/windows_enums.py] *)

Module windows_enums.

(** A member of the [IntEnum] [DICodes]: its [.name] and its value.  The
    enum has 144 members; the ones listed are those of the shipped
    configuration. *)
Record DICodes : Type := DICode { DI_name : string; DI_value : Z }.

Module DICodes.
Definition W : DICodes := DICode "W" 0x11.
Definition R : DICodes := DICode "R" 0x13.
Definition A : DICodes := DICode "A" 0x1E.
Definition S : DICodes := DICode "S" 0x1F.
Definition D : DICodes := DICode "D" 0x20.
Definition LSHIFT : DICodes := DICode "LSHIFT" 0x2A.
Definition SPACE : DICodes := DICode "SPACE" 0x39.
End DICodes.

Inductive MouseFlags : Type :=
| MOVE | LEFT_CLICK | LEFT_RELEASE | RIGHT_CLICK | RIGHT_RELEASE.

Definition MouseFlags_value (f : MouseFlags) : Z :=
  match f with
  | MOVE => 0x0001
  | LEFT_CLICK => 0x0002
  | LEFT_RELEASE => 0x0004
  | RIGHT_CLICK => 0x0008
  | RIGHT_RELEASE => 0x0010
  end.

Definition MouseFlags_name (f : MouseFlags) : string :=
  match f with
  | MOVE => "MOVE"
  | LEFT_CLICK => "LEFT_CLICK"
  | LEFT_RELEASE => "LEFT_RELEASE"
  | RIGHT_CLICK => "RIGHT_CLICK"
  | RIGHT_RELEASE => "RIGHT_RELEASE"
  end.

Inductive KeyFlags : Type := PRESS | RELEASE.


(** [class MouseDirections(tuple, Enum)]: every member is a pair. *)
Inductive MouseDirections : Type := LEFT | RIGHT | UP | DOWN | STAY.

Definition MouseDirections_value (d : MouseDirections) : Z * Z :=
  match d with
  | LEFT => (-1, 0)
  | RIGHT => (1, 0)
  | UP => (0, -1)
  | DOWN => (0, 1)
  | STAY => (0, 0)
  end.

Definition MouseDirections_name (d : MouseDirections) : string :=
  match d with
  | LEFT => "LEFT"
  | RIGHT => "RIGHT"
  | UP => "UP"
  | DOWN => "DOWN"
  | STAY => "STAY"
  end.

End windows_enums.

(** ** MIDI messages (the [mido] library)

    The channel voice messages of [mido]: the messages that carry a
    [channel] attribute.  [note] is read by the program only on messages
    whose type contains ["note_"]. *)

Module mido.

Inductive msg_type : Type :=
| note_off | note_on | polytouch | control_change
| program_change | aftertouch | pitchwheel.

(** [message.type] is a string in Python. *)
Definition type_str (t : msg_type) : string :=
  match t with
  | note_off => "note_off"
  | note_on => "note_on"
  | polytouch => "polytouch"
  | control_change => "control_change"
  | program_change => "program_change"
  | aftertouch => "aftertouch"
  | pitchwheel => "pitchwheel"
  end.

Record Message : Type := mkMessage {
  type : msg_type;
  channel : Z;
  note : Z
}.

(** An opened input port, identified by the name it was opened with. *)
Record Port : Type := mkPort { port_name : string }.

End mido.

(** ** Observable effects

    One chronological trace records everything the program does to the
    outside: text written by [print], the three senders of
    [src/windows/windows_io.py] (each call builds one [INPUT] structure and
    passes it to [SendInput]), and [time.sleep].  [Invoke] is a ghost event
    written on entry to one of the three [translate_*] handlers; it has no
    counterpart at run time and only makes "which handler ran" observable. *)

Inductive Handler : Type :=
| H_translate_keystroke
| H_translate_mouse_move
| H_translate_mouse_button.

Inductive event : Type :=
| print (text : string)
| send_key_event (key : windows_enums.DICodes) (flag : windows_enums.KeyFlags)
| send_mouse_movement_event (x y : Z)
| send_mouse_button_event (flag : windows_enums.MouseFlags)
| time_sleep (secs : PyNum.float)
| Invoke (h : Handler).

Definition is_output_action (e : event) : bool :=
  match e with
  | send_key_event _ _ | send_mouse_movement_event _ _
  | send_mouse_button_event _ => true
  | _ => false
  end.

(** The calls into [windows_io], in order. *)
Definition output_actions (t : list event) : list event :=
  List.filter is_output_action t.

(** The handlers that were entered, in order. *)
Definition invoked (t : list event) : list Handler :=
  omap (fun e => match e with Invoke h => Some h | _ => None end) t.

(** Characters that cannot be written inside a string literal here. *)
Definition nl : string := String (ascii_of_nat 10) EmptyString.
Definition dquote : string := String (ascii_of_nat 34) EmptyString.

(** ** [src/midi/midi_io.py] *)

Module midi_io.
Import mido.

Section find_device.
(** The two entry points of [mido] that [find_device] calls:
    the enumerated input names, and the opening of a port by name,
    which may raise. *)
Variable get_input_names : outcome (list string).
Variable open_input : string -> outcome Port.

(** The [for] loop of the [try] body.  [Some r]: the loop left the
    function through [return mido.open_input(name)], with the outcome
    [r] of that call.  [None]: the loop ran to its end. *)
Fixpoint find_device_for (identifier : string) (names : list string)
  : option (outcome Port) :=
  match names with
  | [] => None
  | name :: rest =>
      if PyStr.contains (PyStr.lower identifier) (PyStr.lower name)
      then Some (open_input name)
      else find_device_for identifier rest
  end.

Definition not_a_device (identifier : string) : string :=
  nl +:+ "Error: " +:+ dquote +:+ identifier +:+ dquote +:+
  " does not identify an active or valid MIDI device." +:+ nl.

Definition device_in_use (identifier : string) : string :=
  nl +:+ "Error: Device identified by " +:+ dquote +:+ identifier +:+
  dquote +:+ " appears to be in use by another process." +:+ nl.

(** [find_device(identifier)]: the result and what was printed. *)
Definition find_device (identifier : string)
  : outcome Port * list event :=
  let body :=
    match get_input_names with
    | Ret names => find_device_for identifier names
    | Raise e => Some (Raise e)
    end in
  match body with
  | Some (Ret port) => (Ret port, [])
  | Some (Raise SystemError) =>
      (Raise (SystemExit 1), [print (not_a_device identifier)])
  | Some (Raise OSError) =>
      (Raise (SystemExit 1), [print (device_in_use identifier)])
  | Some (Raise e) => (Raise e, [])
  | None =>
      (Raise (SystemExit 1), [print (not_a_device identifier)])
  end.
End find_device.

End midi_io.

(** ** [src/midiator.py] *)

Module midiator.
Import mido windows_enums.

(** The attributes of a [MIDIator] object. *)
Record MIDIator : Type := mkMIDIator {
  verbose : bool;
  key_binds : gmap Z DICodes;
  mouse_movement_binds : gmap Z MouseDirections;
  mouse_button_binds : gmap Z (MouseFlags * MouseFlags);
  midi_port : Port;
  midi_channel : Z;
  mouse_sensitivity : Z;
  mouse_refresh : PyNum.float;
  mouse_vector : Z * Z
}.

(** [self.mouse_vector[i] = v] for i = 0, 1. *)
Definition set_mouse_vector (v : Z * Z) (self : MIDIator) : MIDIator :=
  {| verbose := verbose self;
     key_binds := key_binds self;
     mouse_movement_binds := mouse_movement_binds self;
     mouse_button_binds := mouse_button_binds self;
     midi_port := midi_port self;
     midi_channel := midi_channel self;
     mouse_sensitivity := mouse_sensitivity self;
     mouse_refresh := mouse_refresh self;
     mouse_vector := v |}.

(** *** The monad of methods

    A method runs on the object [self], may mutate it, appends to the
    trace, and either returns or raises.  Mutations and trace entries
    made before an exception stay. *)
Definition M (A : Type) : Type :=
  MIDIator -> outcome A * MIDIator * list event.

Definition ret {A} (a : A) : M A := fun self => (Ret a, self, []).

Definition bind {A B} (m : M A) (k : A -> M B) : M B :=
  fun self =>
    match m self with
    | (Ret a, self1, t1) =>
        match k a self1 with
        | (r, self2, t2) => (r, self2, t1 ++ t2)
        end
    | (Raise e, self1, t1) => (Raise e, self1, t1)
    end.

Definition get : M MIDIator := fun self => (Ret self, self, []).
Definition put (self' : MIDIator) : M unit := fun _ => (Ret tt, self', []).
Definition emit (e : event) : M unit := fun self => (Ret tt, self, [e]).
Definition raise {A} (e : exn) : M A := fun self => (Raise e, self, []).

Definition lift {A} (r : outcome A) : M A :=
  match r with
  | Ret a => ret a
  | Raise e => raise e
  end.

Notation "x <- m ;; k" := (bind m (fun x => k))
  (at level 100, m at next level, right associativity,
   format "'[v' x  <-  m  ;; '/' k ']'").
Notation "m ;;; k" := (bind m (fun _ => k))
  (at level 100, right associativity,
   format "'[v' m  ;;; '/' k ']'").

Definition result {A} (r : outcome A * MIDIator * list event) : outcome A :=
  fst (fst r).
Definition final {A} (r : outcome A * MIDIator * list event) : MIDIator :=
  snd (fst r).
Definition trace {A} (r : outcome A * MIDIator * list event) : list event :=
  snd r.

(** [key in d] and [d[key]] on a dictionary. *)
Definition contains_key {V} (d : gmap Z V) (key : Z) : bool :=
  match d !! key with
  | Some _ => true
  | None => false
  end.

Definition getitem {V} (d : gmap Z V) (key : Z) : M V :=
  match d !! key with
  | Some v => ret v
  | None => raise KeyError
  end.

(** [message.type == "note_on"] *)
Definition is_note_on (message : Message) : bool :=
  String.eqb (type_str (type message)) "note_on".

(** [MIDIator.log]: [print] with the given [end] when [verbose] is set. *)
Definition log (text : string) (end_ : string) : M unit :=
  self <- get ;;
  if verbose self then emit (print (text +:+ end_)) else ret tt.

(** [MIDIator.translate_keystroke] *)
Definition translate_keystroke (message : Message) : M unit :=
  emit (Invoke H_translate_keystroke) ;;;
  self <- get ;;
  (if is_note_on message then
     k <- getitem (key_binds self) (note message) ;;
     log ("Key " +:+ DI_name k) nl
   else ret tt) ;;;
  direct_input_key <- getitem (key_binds self) (note message) ;;
  let flag := if is_note_on message then PRESS else RELEASE in
  emit (send_key_event direct_input_key flag).

(** [MIDIator.translate_mouse_move] *)
Definition translate_mouse_move (message : Message) : M unit :=
  emit (Invoke H_translate_mouse_move) ;;;
  self <- get ;;
  (if is_note_on message then
     d <- getitem (mouse_movement_binds self) (note message) ;;
     log ("Mouse " +:+ MouseDirections_name d) nl
   else ret tt) ;;;
  d <- getitem (mouse_movement_binds self) (note message) ;;
  let '(x, y) := MouseDirections_value d in
  let polarity := if is_note_on message then 1 else -1 in
  self <- get ;;
  put (set_mouse_vector
         (fst (mouse_vector self) + polarity * x * mouse_sensitivity self,
          snd (mouse_vector self)) self) ;;;
  self <- get ;;
  put (set_mouse_vector
         (fst (mouse_vector self),
          snd (mouse_vector self) + polarity * y * mouse_sensitivity self)
         self).

(** [MIDIator.translate_mouse_button] *)
Definition translate_mouse_button (message : Message) : M unit :=
  emit (Invoke H_translate_mouse_button) ;;;
  self <- get ;;
  (if is_note_on message then
     b <- getitem (mouse_button_binds self) (note message) ;;
     log ("Mouse " +:+ MouseFlags_name (fst b)) nl
   else ret tt) ;;;
  b <- getitem (mouse_button_binds self) (note message) ;;
  let '(click_flag, release_flag) := b in
  let flag := if is_note_on message then click_flag else release_flag in
  emit (send_mouse_button_event flag).

Section triage.
(** [Notes], the enum of [src/midi/midi_enums.py], is not among the
    sources.  Only [Notes(value).name] is used: the lookup of a member
    by value is a parameter, [None] where the enum has no member with
    that value (Python raises [ValueError] there). *)
Variable Notes : Z -> option string.

Definition Notes_name (value : Z) : M string :=
  match Notes value with
  | Some name => ret name
  | None => raise ValueError
  end.

(** [MIDIator.triage_message] *)
Definition triage_message (message : Message) : M unit :=
  self <- get ;;
  if (channel message =? midi_channel self)
     && PyStr.contains "note_" (type_str (type message))
  then
    (if is_note_on message then
       name <- Notes_name (note message) ;;
       log ("    > Received MIDI code " +:+ PyStr.str_int (note message)
            +:+ " (" +:+ PyStr.format_width name 3 +:+ ") -> ")
           EmptyString
     else ret tt) ;;;
    if contains_key (key_binds self) (note message) then
      translate_keystroke message
    else if contains_key (mouse_movement_binds self) (note message) then
      translate_mouse_move message
    else if contains_key (mouse_button_binds self) (note message) then
      translate_mouse_button message
    else if is_note_on message then
      log "Key not bound." nl
    else ret tt
  else ret tt.

(** The loop of [MIDIator.start]:
    [for message in self.midi_port: self.triage_message(message)],
    on the messages the port delivers. *)
Fixpoint handle_messages (messages : list Message) : M unit :=
  match messages with
  | [] => ret tt
  | message :: rest =>
      triage_message message ;;; handle_messages rest
  end.
End triage.

(** One iteration of the [while True] loop of [MIDIator.mouse_handler];
    [sin_45] is the local variable computed before the loop. *)
Definition mouse_handler_iteration (sin_45 : PyNum.float) : M unit :=
  self <- get ;;
  let '(x, y) := mouse_vector self in
  xy <- (if (Z.abs x =? Z.abs y) && negb (x =? 0) then
           x' <- lift (PyNum.mul (PyNum.PyInt x) (PyNum.PyFloat sin_45)) ;;
           y' <- lift (PyNum.mul (PyNum.PyInt y) (PyNum.PyFloat sin_45)) ;;
           ret (x', y')
         else ret (PyNum.PyInt x, PyNum.PyInt y)) ;;
  x <- lift (PyNum.int (fst xy)) ;;
  y <- lift (PyNum.int (snd xy)) ;;
  emit (send_mouse_movement_event x y) ;;;
  self <- get ;;
  emit (time_sleep (mouse_refresh self)).

(** The [while True] loop, cut after [n] iterations. *)
Fixpoint mouse_handler_while (sin_45 : PyNum.float) (n : nat) : M unit :=
  match n with
  | O => ret tt
  | S k => mouse_handler_iteration sin_45 ;;; mouse_handler_while sin_45 k
  end.

(** [MIDIator.mouse_handler]: [sin_45 = sin(45)], then the loop. *)
Definition mouse_handler (n : nat) : M unit :=
  let sin_45 := PyNum.sin_45_radians in
  mouse_handler_while sin_45 n.

(** *** The two threads

    [start] spawns [mouse_handler] on a thread of its own and then
    consumes the port on the main thread.  A schedule lists, in the order
    in which they happen, the iterations of the two loops: [Tick] is one
    iteration of the loop of [mouse_handler], [Deliver m] is one
    iteration of the [for] loop on the message [m].  An exception ends
    the thread that raised it and leaves the other one running. *)
Inductive step : Type :=
| Tick
| Deliver (message : Message).

Definition returned {A} (r : outcome A) : bool :=
  match r with Ret _ => true | Raise _ => false end.

Section run.
Variable Notes : Z -> option string.

Fixpoint run (schedule : list step) (main_alive mouse_alive : bool)
    (self : MIDIator) : MIDIator * list event :=
  match schedule with
  | [] => (self, [])
  | Tick :: rest =>
      if mouse_alive then
        let '(r, self1, t1) :=
          mouse_handler_iteration PyNum.sin_45_radians self in
        let '(self2, t2) := run rest main_alive (returned r) self1 in
        (self2, t1 ++ t2)
      else run rest main_alive mouse_alive self
  | Deliver message :: rest =>
      if main_alive then
        let '(r, self1, t1) := triage_message Notes message self in
        let '(self2, t2) := run rest (returned r) mouse_alive self1 in
        (self2, t1 ++ t2)
      else run rest main_alive mouse_alive self
  end.

Definition log_if (verbose : bool) (text end_ : string) : list event :=
  if verbose then [print (text +:+ end_)] else [].

(** [MIDIator.start] under a schedule of the two loops.  The iterations
    of the mouse loop are scheduled from the entry into the [for] loop on:
    those that happen between the start of the thread and that entry are
    placed after the two log lines, which only moves [print] events
    against [Tick]s. *)
Definition start (schedule : list step) (self : MIDIator)
  : MIDIator * list event :=
  let t0 :=
    log_if (verbose self) "{+} Spawning mouse handler thread... " EmptyString
    ++ log_if (verbose self) "Done." nl
    ++ log_if (verbose self) "{+} Handling MIDI events..." nl in
  let '(self1, t1) := run schedule true true self in
  (self1, t0 ++ t1).

Variable get_input_names : outcome (list string).
Variable open_input : string -> outcome Port.

(** [MIDIator.__init__] *)
Definition __init__ (midi_identifier : string)
    (key_binds : gmap Z DICodes)
    (mouse_movement_binds : gmap Z MouseDirections)
    (mouse_button_binds : gmap Z (MouseFlags * MouseFlags))
    (midi_channel : Z) (mouse_sensitivity : Z)
    (mouse_refresh : PyNum.float) (verbose : bool)
  : outcome MIDIator * list event :=
  let t0 :=
    log_if verbose "{+} Initializing MIDIator..." nl
    ++ log_if verbose
         ("    > Connecting to MIDI controller by identifier " +:+ dquote
          +:+ midi_identifier +:+ dquote +:+ "... ") EmptyString in
  match midi_io.find_device get_input_names open_input midi_identifier with
  | (Ret port, t1) =>
      (Ret {| verbose := verbose;
              key_binds := key_binds;
              mouse_movement_binds := mouse_movement_binds;
              mouse_button_binds := mouse_button_binds;
              midi_port := port;
              midi_channel := midi_channel;
              mouse_sensitivity := mouse_sensitivity;
              mouse_refresh := mouse_refresh;
              mouse_vector := (0, 0) |},
       t0 ++ t1 ++ log_if verbose "Done." nl
       ++ log_if verbose "    > Initialization complete. " nl)
  | (Raise e, t1) => (Raise e, t0 ++ t1)
  end.

(** The script: [midiator = MIDIator(...)] then [midiator.start()]. *)
Definition main (identifier : string)
    (key_binds : gmap Z DICodes)
    (mouse_movement_binds : gmap Z MouseDirections)
    (mouse_button_binds : gmap Z (MouseFlags * MouseFlags))
    (midi_channel : Z) (mouse_sensitivity : Z)
    (mouse_refresh : PyNum.float) (verbose : bool)
    (schedule : list step) : outcome MIDIator * list event :=
  match __init__ identifier key_binds mouse_movement_binds
          mouse_button_binds midi_channel mouse_sensitivity
          mouse_refresh verbose with
  | (Ret midiator, t0) =>
      let '(self1, t1) := start schedule midiator in
      (Ret self1, t0 ++ t1)
  | (Raise e, t0) => (Raise e, t0)
  end.
End run.

(** The defaults of the constructor. *)
Definition default_midi_channel : Z := 0.
Definition default_mouse_sensitivity : Z := 4.
(** 0.005 = 0x1.47ae147ae147bp-8 *)
Definition default_mouse_refresh : PyNum.float :=
  S754_finite false 5764607523034235 (-60).
Definition default_verbose : bool := true.

End midiator.

(** ** A concrete configuration

    Used to run the definitions on explicit inputs. *)

Module example.
Import mido windows_enums midiator.

(** A stand-in for the missing [Notes] enum: every MIDI note 0..127 is a
    member, named by its number. *)
Definition Notes (value : Z) : option string :=
  if (0 <=? value) && (value <=? 127)
  then Some ("N" +:+ PyStr.str_int value) else None.

Definition default_key_binds : gmap Z DICodes :=
  {[ 54 := DICodes.W; 52 := DICodes.A; 53 := DICodes.S; 55 := DICodes.D ]}.

Definition default_mouse_movement_binds : gmap Z MouseDirections :=
  {[ 64 := LEFT; 65 := DOWN; 66 := UP; 67 := RIGHT; 68 := STAY ]}.

Definition default_mouse_button_binds : gmap Z (MouseFlags * MouseFlags) :=
  {[ 62 := (LEFT_CLICK, LEFT_RELEASE); 69 := (RIGHT_CLICK, RIGHT_RELEASE);
     68 := (RIGHT_CLICK, RIGHT_RELEASE) ]}.

Definition port : Port := mkPort "Casio USB MIDI".

Definition get_input_names : outcome (list string) :=
  Ret ["Midi Through Port-0"; "Casio USB MIDI"; "CASIO second port"].

Definition open_input (name : string) : outcome Port := Ret (mkPort name).

(** The object the constructor builds from this configuration with its
    default arguments. *)
Definition midiator : MIDIator :=
  {| verbose := default_verbose;
     key_binds := default_key_binds;
     mouse_movement_binds := default_mouse_movement_binds;
     mouse_button_binds := default_mouse_button_binds;
     midi_port := port;
     midi_channel := default_midi_channel;
     mouse_sensitivity := default_mouse_sensitivity;
     mouse_refresh := default_mouse_refresh;
     mouse_vector := (0, 0) |}.

Definition on (n : Z) : Message := mkMessage note_on 0 n.
Definition off (n : Z) : Message := mkMessage note_off 0 n.

End example.

(** ** Notions used in the statements *)

Module statements.
Import mido windows_enums midiator.

Definition vadd (v w : Z * Z) : Z * Z := (fst v + fst w, snd v + snd w).

(** The guard of [triage_message]. *)
Definition passes_filter (self : MIDIator) (message : Message) : bool :=
  (channel message =? midi_channel self)
  && PyStr.contains "note_" (type_str (type message)).

Definition polarity (message : Message) : Z :=
  if is_note_on message then 1 else -1.

(** What [translate_mouse_move] adds to the vector for direction [d]. *)
Definition contribution (self : MIDIator) (message : Message)
    (d : MouseDirections) : Z * Z :=
  (polarity message * fst (MouseDirections_value d) * mouse_sensitivity self,
   polarity message * snd (MouseDirections_value d) * mouse_sensitivity self).

(** What a message adds to the vector when it is dispatched. *)
Definition delta (self : MIDIator) (message : Message) : Z * Z :=
  if passes_filter self message
     && negb (contains_key (key_binds self) (note message)) then
    match mouse_movement_binds self !! note message with
    | Some d => contribution self message d
    | None => (0, 0)
    end
  else (0, 0).

(** The line [triage_message] logs for a ["note_on"] message. *)
Definition received_line (message : Message) (name : string) : string :=
  "    > Received MIDI code " +:+ PyStr.str_int (note message)
  +:+ " (" +:+ PyStr.format_width name 3 +:+ ") -> ".

(** The events of the handler chosen for [message], given the three
    lookups of its note. *)
Definition dispatched (self : MIDIator) (message : Message) : list event :=
  let on := is_note_on message in
  match key_binds self !! note message with
  | Some k =>
      Invoke H_translate_keystroke ::
      (if on then log_if (verbose self) ("Key " +:+ DI_name k) nl else [])
      ++ [send_key_event k (if on then PRESS else RELEASE)]
  | None =>
  match mouse_movement_binds self !! note message with
  | Some d =>
      Invoke H_translate_mouse_move ::
      (if on
       then log_if (verbose self) ("Mouse " +:+ MouseDirections_name d) nl
       else [])
  | None =>
  match mouse_button_binds self !! note message with
  | Some b =>
      Invoke H_translate_mouse_button ::
      (if on
       then log_if (verbose self) ("Mouse " +:+ MouseFlags_name (fst b)) nl
       else [])
      ++ [send_mouse_button_event (if on then fst b else snd b)]
  | None => if on then log_if (verbose self) "Key not bound." nl else []
  end end end.

(** The sum of what the messages add, in order. *)
Fixpoint total_delta (self : MIDIator) (messages : list Message) : Z * Z :=
  match messages with
  | [] => (0, 0)
  | message :: rest => vadd (delta self message) (total_delta self rest)
  end.

(** [identifier] occurs in [name] when case is ignored: some substring
    [w] of [name] is [identifier] up to the case of its letters. *)
Definition ci_substring (identifier name : string) : Prop :=
  exists a w b,
    name = a +:+ w +:+ b /\ PyStr.lower w = PyStr.lower identifier.

(** The messages a schedule delivers to the main loop, in order. *)
Definition delivered (schedule : list step) : list Message :=
  omap (fun s => match s with Deliver m => Some m | Tick => None end)
       schedule.

(** The note of the message is a member of the enum of note names. *)
Definition named (Notes : Z -> option string) (message : Message) : Prop :=
  is_Some (Notes (note message)).

(** The events [triage_message] logs before it dispatches; [Notes] is the
    lookup of the enum of note names. *)
Definition announced (Notes : Z -> option string) (self : MIDIator)
    (message : Message) : list event :=
  match Notes (note message) with
  | Some name =>
      if is_note_on message
      then log_if (verbose self) (received_line message name) EmptyString
      else []
  | None => []
  end.
End statements.

(** ** Further notions

    Used in the statements about the parts of the code that the claims
    above leave out. *)

Module further.
Import mido windows_enums midiator statements.

Definition is_print (e : event) : bool :=
  match e with print _ => true | _ => false end.

(** The events an iteration of [mouse_handler] leaves. *)
Definition is_pump_event (e : event) : bool :=
  match e with
  | send_mouse_movement_event _ _ | time_sleep _ => true
  | _ => false
  end.

Definition not_pump_event (e : event) : bool := negb (is_pump_event e).


(** The message reaches [translate_mouse_move]. *)
Definition moves (self : MIDIator) (message : Message) : bool :=
  passes_filter self message
  && negb (contains_key (key_binds self) (note message))
  && contains_key (mouse_movement_binds self) (note message).





(** A backend on which the port "Casio USB MIDI" is held by another
    process. *)
Definition busy_open_input (name : string) : outcome Port :=
  if String.eqb name "Casio USB MIDI" then Raise OSError
  else Ret (mkPort name).

(** The opposite of an int that was returned. *)
Definition opp_outcome (r : outcome Z) : outcome Z :=
  match r with Ret z => Ret (- z) | Raise e => Raise e end.

(** [int(z * sin_45)] for an int [z]: one component of the diagonal
    scaling of [mouse_handler]. *)
Definition scaled (sin_45 : PyNum.float) (z : Z) : outcome Z :=
  match PyNum.mul (PyNum.PyInt z) (PyNum.PyFloat sin_45) with
  | Ret a => PyNum.int a
  | Raise e => Raise e
  end.

(** The same on the exact value of the binary64 [sin(45)]: the product
    7664257592040195 * z / 2^53, truncated toward zero. *)
Definition scaled_exactly (z : Z) : Z :=
  Z.quot (z * 7664257592040195) (2 ^ 53).

(** The float computation agrees with the exact one at [z], which is
    smaller in magnitude than [z] and is zero only for |z| = 1. *)
Definition scaled_as_exact (z : Z) : bool :=
  match scaled PyNum.sin_45_radians z with
  | Ret zi =>
      (zi =? scaled_exactly z)
      && ((z =? 0) || (Z.abs zi <? Z.abs z))
      && Bool.eqb (zi =? 0) (Z.abs z <=? 1)
  | Raise _ => false
  end.

(** The calls into [windows_io] that the dispatch of one message makes. *)
Definition sent (self : MIDIator) (message : Message) : list event :=
  if passes_filter self message
  then output_actions (dispatched self message)
  else [].

End further.

(** ** [src/windows/windows_enums.py]: the members of [DICodes] *)

Module DICodes_enum.
Import windows_enums.

(** The 144 members, in the order of the class body. *)
Definition members : list DICodes :=
  [ DICode "ESCAPE" 0x01;
    DICode "ONE" 0x02;
    DICode "TWO" 0x03;
    DICode "THREE" 0x04;
    DICode "FOUR" 0x05;
    DICode "FIVE" 0x06;
    DICode "SIX" 0x07;
    DICode "SEVEN" 0x08;
    DICode "EIGHT" 0x09;
    DICode "NINE" 0x0A;
    DICode "TEN" 0x0B;
    DICode "MINUS" 0x0C;
    DICode "EQUALS" 0x0D;
    DICode "BACK" 0x0E;
    DICode "TAB" 0x0F;
    DICode "Q" 0x10;
    DICode "W" 0x11;
    DICode "E" 0x12;
    DICode "R" 0x13;
    DICode "T" 0x14;
    DICode "Y" 0x15;
    DICode "U" 0x16;
    DICode "I" 0x17;
    DICode "O" 0x18;
    DICode "P" 0x19;
    DICode "LBRACKET" 0x1A;
    DICode "RBRACKET" 0x1B;
    DICode "RETURN" 0x1C;
    DICode "LCONTROL" 0x1D;
    DICode "A" 0x1E;
    DICode "S" 0x1F;
    DICode "D" 0x20;
    DICode "F" 0x21;
    DICode "G" 0x22;
    DICode "H" 0x23;
    DICode "J" 0x24;
    DICode "K" 0x25;
    DICode "L" 0x26;
    DICode "SEMICOLON" 0x27;
    DICode "APOSTROPHE" 0x28;
    DICode "GRAVE" 0x29;
    DICode "LSHIFT" 0x2A;
    DICode "BACKSLASH" 0x2B;
    DICode "Z" 0x2C;
    DICode "X" 0x2D;
    DICode "C" 0x2E;
    DICode "V" 0x2F;
    DICode "B" 0x30;
    DICode "N" 0x31;
    DICode "M" 0x32;
    DICode "COMMA" 0x33;
    DICode "PERIOD" 0x34;
    DICode "SLASH" 0x35;
    DICode "RSHIFT" 0x36;
    DICode "MULTIPLY" 0x37;
    DICode "LMENU" 0x38;
    DICode "SPACE" 0x39;
    DICode "CAPITAL" 0x3A;
    DICode "F1" 0x3B;
    DICode "F2" 0x3C;
    DICode "F3" 0x3D;
    DICode "F4" 0x3E;
    DICode "F5" 0x3F;
    DICode "F6" 0x40;
    DICode "F7" 0x41;
    DICode "F8" 0x42;
    DICode "F9" 0x43;
    DICode "F10" 0x44;
    DICode "NUMLOCK" 0x45;
    DICode "SCROLL" 0x46;
    DICode "NUMPAD7" 0x47;
    DICode "NUMPAD8" 0x48;
    DICode "NUMPAD9" 0x49;
    DICode "SUBTRACT" 0x4A;
    DICode "NUMPAD4" 0x4B;
    DICode "NUMPAD5" 0x4C;
    DICode "NUMPAD6" 0x4D;
    DICode "ADD" 0x4E;
    DICode "NUMPAD1" 0x4F;
    DICode "NUMPAD2" 0x50;
    DICode "NUMPAD3" 0x51;
    DICode "NUMPAD0" 0x52;
    DICode "DECIMAL" 0x53;
    DICode "OEM_102" 0x56;
    DICode "F11" 0x57;
    DICode "F12" 0x58;
    DICode "F13" 0x64;
    DICode "F14" 0x65;
    DICode "F15" 0x66;
    DICode "KANA" 0x70;
    DICode "ABNT_C1" 0x73;
    DICode "CONVERT" 0x79;
    DICode "NOCONVERT" 0x7B;
    DICode "YEN" 0x7D;
    DICode "ABNT_C2" 0x7E;
    DICode "NUMPADEQUALS" 0x8D;
    DICode "PREVTRACK" 0x90;
    DICode "AT" 0x91;
    DICode "COLON" 0x92;
    DICode "UNDERLINE" 0x93;
    DICode "KANJI" 0x94;
    DICode "STOP" 0x95;
    DICode "AX" 0x96;
    DICode "UNLABELED" 0x97;
    DICode "NEXTTRACK" 0x99;
    DICode "NUMPADENTER" 0x9C;
    DICode "RCONTROL" 0x9D;
    DICode "MUTE" 0xA0;
    DICode "CALCULATOR" 0xA1;
    DICode "PLAYPAUSE" 0xA2;
    DICode "MEDIASTOP" 0xA4;
    DICode "VOLUMEDOWN" 0xAE;
    DICode "VOLUMEUP" 0xB0;
    DICode "WEBHOME" 0xB2;
    DICode "NUMPADCOMMA" 0xB3;
    DICode "DIVIDE" 0xB5;
    DICode "SYSRQ" 0xB7;
    DICode "RMENU" 0xB8;
    DICode "PAUSE" 0xC5;
    DICode "HOME" 0xC7;
    DICode "UP" 0xC8;
    DICode "PRIOR" 0xC9;
    DICode "LEFT" 0xCB;
    DICode "RIGHT" 0xCD;
    DICode "END" 0xCF;
    DICode "DOWN" 0xD0;
    DICode "NEXT" 0xD1;
    DICode "INSERT" 0xD2;
    DICode "DELETE" 0xD3;
    DICode "LWIN" 0xDB;
    DICode "RWIN" 0xDC;
    DICode "APPS" 0xDD;
    DICode "POWER" 0xDE;
    DICode "SLEEP" 0xDF;
    DICode "WAKE" 0xE3;
    DICode "WEBSEARCH" 0xE5;
    DICode "WEBFAVORITES" 0xE6;
    DICode "WEBREFRESH" 0xE7;
    DICode "WEBSTOP" 0xE8;
    DICode "WEBFORWARD" 0xE9;
    DICode "WEBBACK" 0xEA;
    DICode "MYCOMPUTER" 0xEB;
    DICode "MAIL" 0xEC;
    DICode "MEDIASELECT" 0xED ].

(** [DICodes(value)]: the first member with that value; Python raises
    [ValueError] where this is [None]. *)
Definition of_value (value : Z) : option DICodes :=
  List.find (fun k => DI_value k =? value) members.

(** [DICodes[name]]: the member of that name; [KeyError] where [None]. *)
Definition of_name (name : string) : option DICodes :=
  List.find (fun k => String.eqb (DI_name k) name) members.

Definition DICodes_eqb (a b : DICodes) : bool :=
  String.eqb (DI_name a) (DI_name b) && (DI_value a =? DI_value b).

(** The round trips through value and name, and the range, at one
    member. *)
Definition member_ok (k : DICodes) : bool :=
  match of_value (DI_value k), of_name (DI_name k) with
  | Some a, Some b =>
      DICodes_eqb a k && DICodes_eqb b k
      && (0 <? DI_value k) && (DI_value k <? 2 ^ 8)
  | _, _ => false
  end.

End DICodes_enum.

(** ** [src/windows/windows_io.py]

    The three senders build one [INPUT] structure and pass it to
    [SendInput]; the structure is what is modelled here.  [ctypes] keeps
    the low bits of an int stored in an integer field, without any
    overflow check; on Windows [c_long] and [c_ulong] are 32 bits wide and
    [c_ushort] 16.  [dwExtraInfo] points to a [c_ulong(0)]: the field
    holds the value pointed to. *)

Module windows_io.
Import windows_enums.

Definition c_ushort (z : Z) : Z := z mod 2 ^ 16.
Definition c_ulong (z : Z) : Z := z mod 2 ^ 32.
Definition c_long (z : Z) : Z := (z + 2 ^ 31) mod 2 ^ 32 - 2 ^ 31.

Record KeyBdInput : Type := mkKeyBdInput {
  wVk : Z;
  wScan : Z;
  ki_dwFlags : Z;
  ki_time : Z;
  ki_dwExtraInfo : Z
}.

Record MouseInput : Type := mkMouseInput {
  dx : Z;
  dy : Z;
  mouseData : Z;
  mi_dwFlags : Z;
  mi_time : Z;
  mi_dwExtraInfo : Z
}.

(** The union [InputI], by the member that was assigned. *)
Inductive InputI : Type :=
| ki (k : KeyBdInput)
| mi (m : MouseInput).

Record Input : Type := mkInput {
  type : Z;
  ii : InputI
}.

(** [send_key_event(key, flag)]: the structure given to [SendInput]. *)
Definition send_key_event (key flag : Z) : Input :=
  let extra := c_ulong 0 in
  let ii_ := ki (mkKeyBdInput (c_ushort 0) (c_ushort key) (c_ulong flag)
                              (c_ulong 0) extra) in
  mkInput (c_ulong 1) ii_.

(** [send_mouse_movement_event(x, y)] *)
Definition send_mouse_movement_event (x y : Z) : Input :=
  let extra := c_ulong 0 in
  let ii_ := mi (mkMouseInput (c_long x) (c_long y) (c_ulong 0)
                              (c_ulong (MouseFlags_value MOVE))
                              (c_ulong 0) extra) in
  mkInput (c_ulong 0) ii_.

(** [send_mouse_button_event(flag)] *)
Definition send_mouse_button_event (flag : Z) : Input :=
  let extra := c_ulong 0 in
  let ii_ := mi (mkMouseInput (c_long 0) (c_long 0) (c_ulong 0)
                              (c_ulong flag) (c_ulong 0) extra) in
  mkInput (c_ulong 0) ii_.

End windows_io.


(** * Proofs *)

(** ** Strings *)

Lemma append_empty_r (s : string) : s +:+ EmptyString = s.
Proof.
  induction s as [| c s IH]; [reflexivity |].
  change (String c (s +:+ EmptyString) = String c s). f_equal. exact IH.
Qed.

Lemma append_cons (c : ascii) (a b : string) :
  String c a +:+ b = String c (a +:+ b).
Proof. reflexivity. Qed.

Lemma prefix_iff (n h : string) :
  String.prefix n h = true <-> exists b, h = n +:+ b.
Proof.
  revert h. induction n as [| c n IH]; intros h.
  - destruct h; cbn [String.prefix]; split; eauto.
  - destruct h as [| c' h]; cbn [String.prefix].
    + split; [discriminate | intros [b Hb]; discriminate].
    + destruct (ascii_dec c c') as [<- | Hne].
      * rewrite IH. split; intros [b Hb]; exists b.
        -- rewrite append_cons, Hb. reflexivity.
        -- rewrite append_cons in Hb. congruence.
      * split; [discriminate |]. intros [b Hb].
        rewrite append_cons in Hb. congruence.
Qed.

(** [needle in hay] holds exactly when [needle] is a substring of [hay]. *)
Lemma contains_iff (n h : string) :
  PyStr.contains n h = true <-> exists a b, h = a +:+ n +:+ b.
Proof.
  induction h as [| c h IH]; cbn [PyStr.contains].
  - rewrite orb_false_r, prefix_iff. split.
    + intros [b Hb]. exists EmptyString, b. exact Hb.
    + intros ([| c a] & b & Hb); [exists b; exact Hb | discriminate].
  - rewrite orb_true_iff, prefix_iff, IH. split.
    + intros [[b Hb] | (a & b & Hb)].
      * exists EmptyString, b. exact Hb.
      * exists (String c a), b. rewrite append_cons, Hb. reflexivity.
    + intros ([| c' a] & b & Hb).
      * left. exists b. exact Hb.
      * right. exists a, b. rewrite append_cons in Hb. congruence.
Qed.

Lemma lower_append (a b : string) :
  PyStr.lower (a +:+ b) = PyStr.lower a +:+ PyStr.lower b.
Proof.
  induction a as [| c a IH]; [reflexivity |].
  rewrite append_cons. cbn [PyStr.lower]. rewrite IH. reflexivity.
Qed.

(** A split of [s.lower()] comes from a split of [s]. *)
Lemma lower_split (s u v : string) :
  PyStr.lower s = u +:+ v ->
  exists s1 s2, s = s1 +:+ s2 /\ PyStr.lower s1 = u /\ PyStr.lower s2 = v.
Proof.
  revert s. induction u as [| c u IH]; intros s H.
  - exists EmptyString, s. repeat split. exact H.
  - destruct s as [| c0 s]; [discriminate |].
    cbn [PyStr.lower] in H. rewrite append_cons in H.
    injection H as Hc Hs. destruct (IH s Hs) as (s1 & s2 & -> & <- & <-).
    exists (String c0 s1), s2. rewrite <- Hc. repeat split.
Qed.


Lemma lower_upper_ascii (c : ascii) :
  PyStr.lower_ascii (PyStr.upper_ascii c) = PyStr.lower_ascii c.
Proof.
  destruct c as [[] [] [] [] [] [] [] []]; reflexivity.
Qed.

(** The case of the letters is forgotten by [lower]. *)
Lemma lower_upper (s : string) : PyStr.lower (PyStr.upper s) = PyStr.lower s.
Proof.
  induction s as [| c s IH]; [reflexivity |].
  cbn [PyStr.lower PyStr.upper]. rewrite IH, lower_upper_ascii. reflexivity.
Qed.


(** The test of [find_device] decides [ci_substring]. *)
Lemma contains_lower_iff (identifier name : string) :
  PyStr.contains (PyStr.lower identifier) (PyStr.lower name) = true
  <-> statements.ci_substring identifier name.
Proof.
  rewrite contains_iff. unfold statements.ci_substring. split.
  - intros (a' & b' & H).
    destruct (lower_split _ _ _ H) as (a & rest & -> & <- & Hrest).
    destruct (lower_split _ _ _ Hrest) as (w & b & -> & Hw & <-).
    exists a, w, b. split; [reflexivity | exact Hw].
  - intros (a & w & b & -> & Hw).
    exists (PyStr.lower a), (PyStr.lower b).
    rewrite !lower_append, Hw. reflexivity.
Qed.

(** ** The monad and the three handlers *)

Section Handlers.
Import mido windows_enums midiator statements.

Lemma set_mouse_vector_id self : set_mouse_vector (mouse_vector self) self = self.
Proof. destruct self; reflexivity. Qed.

Lemma log_run text end_ self :
  log text end_ self = (Ret tt, self, log_if (verbose self) text end_).
Proof. unfold log, log_if, bind, get, emit, ret. destruct (verbose self); reflexivity. Qed.

Lemma translate_keystroke_run message self k :
  key_binds self !! note message = Some k ->
  translate_keystroke message self =
    (Ret tt, self,
     Invoke H_translate_keystroke ::
     (if is_note_on message
      then log_if (verbose self) ("Key " +:+ DI_name k) nl else [])
     ++ [send_key_event k (if is_note_on message then PRESS else RELEASE)]).
Proof.
  intros Hk. unfold translate_keystroke, bind, get, emit, getitem, ret.
  cbn [fst snd]. rewrite Hk.
  destruct (is_note_on message); [rewrite log_run |]; reflexivity.
Qed.

Lemma translate_mouse_move_run message self d :
  mouse_movement_binds self !! note message = Some d ->
  translate_mouse_move message self =
    (Ret tt,
     set_mouse_vector (vadd (mouse_vector self) (contribution self message d)) self,
     Invoke H_translate_mouse_move ::
     (if is_note_on message
      then log_if (verbose self) ("Mouse " +:+ MouseDirections_name d) nl
      else [])).
Proof.
  intros Hd. unfold translate_mouse_move, bind, get, emit, getitem, ret, put.
  cbn [fst snd]. rewrite Hd. unfold contribution, polarity, vadd.
  destruct (MouseDirections_value d) as [x y].
  destruct (is_note_on message); [rewrite log_run |];
    cbn [fst snd mouse_vector set_mouse_vector mouse_sensitivity];
    rewrite ?app_nil_r; reflexivity.
Qed.

Lemma translate_mouse_button_run message self b :
  mouse_button_binds self !! note message = Some b ->
  translate_mouse_button message self =
    (Ret tt, self,
     Invoke H_translate_mouse_button ::
     (if is_note_on message
      then log_if (verbose self) ("Mouse " +:+ MouseFlags_name (fst b)) nl
      else [])
     ++ [send_mouse_button_event
           (if is_note_on message then fst b else snd b)]).
Proof.
  intros Hb. unfold translate_mouse_button, bind, get, emit, getitem, ret.
  cbn [fst snd]. rewrite Hb. destruct b as [click release].
  destruct (is_note_on message); [rewrite log_run |]; reflexivity.
Qed.
End Handlers.

(** ** The dispatcher *)

Section Triage.
Import mido windows_enums midiator statements.
Variable Notes : Z -> option string.

Lemma bind_get {B} (k : MIDIator -> M B) self :
  bind get k self = k self self.
Proof.
  unfold bind, get. destruct (k self self) as [[r s] t]. reflexivity.
Qed.

Lemma bind_returns {A B} (m : M A) (k : A -> M B) self a self1 t1 r self2 t2 :
  m self = (Ret a, self1, t1) ->
  k a self1 = (r, self2, t2) ->
  bind m k self = (r, self2, t1 ++ t2).
Proof. unfold bind. intros -> ->. reflexivity. Qed.

Lemma bind_raises {A B} (m : M A) (k : A -> M B) self e self1 t1 :
  m self = (Raise e, self1, t1) ->
  bind m k self = (Raise e, self1, t1).
Proof. unfold bind. intros ->. reflexivity. Qed.


Lemma is_note_on_iff (message : Message) :
  is_note_on message = true <-> type message = note_on.
Proof.
  unfold is_note_on. destruct (type message); vm_compute; split;
    intros H; try discriminate; reflexivity.
Qed.

Lemma triage_message_reject message self :
  passes_filter self message = false ->
  triage_message Notes message self = (Ret tt, self, []).
Proof.
  unfold passes_filter, triage_message. rewrite bind_get.
  intros ->. reflexivity.
Qed.

Lemma triage_message_unnamed message self :
  passes_filter self message = true ->
  is_note_on message = true ->
  Notes (note message) = None ->
  triage_message Notes message self = (Raise ValueError, self, []).
Proof.
  unfold passes_filter, triage_message. rewrite bind_get.
  intros -> -> Hn. apply bind_raises. apply bind_raises.
  unfold Notes_name. rewrite Hn. reflexivity.
Qed.

Lemma vadd_0 v : vadd v (0, 0) = v.
Proof. destruct v; unfold vadd; cbn [fst snd]. f_equal; lia. Qed.

Lemma triage_message_accept message self :
  passes_filter self message = true ->
  (is_note_on message = true -> is_Some (Notes (note message))) ->
  triage_message Notes message self =
    (Ret tt,
     set_mouse_vector (vadd (mouse_vector self) (delta self message)) self,
     announced Notes self message ++ dispatched self message).
Proof.
  intros Hp Hn. unfold delta, dispatched. rewrite Hp.
  unfold passes_filter in Hp.
  unfold triage_message. rewrite bind_get, Hp.
  apply bind_returns with (a := tt) (self1 := self)
                          (t1 := announced Notes self message).
  { unfold announced. destruct (is_note_on message).
    - destruct Hn as [name Hname]; [reflexivity |]. rewrite Hname.
      unfold bind, Notes_name. rewrite Hname. unfold ret.
      rewrite log_run. reflexivity.
    - destruct (Notes (note message)); reflexivity. }
  unfold contains_key. cbn [andb negb].
  destruct (key_binds self !! note message) as [k |] eqn:Hk.
  { rewrite (translate_keystroke_run _ _ _ Hk), vadd_0, set_mouse_vector_id.
    reflexivity. }
  destruct (mouse_movement_binds self !! note message) as [d |] eqn:Hd.
  { rewrite (translate_mouse_move_run _ _ _ Hd). reflexivity. }
  rewrite vadd_0, set_mouse_vector_id.
  destruct (mouse_button_binds self !! note message) as [b |] eqn:Hb.
  { rewrite (translate_mouse_button_run _ _ _ Hb). reflexivity. }
  destruct (is_note_on message); [apply log_run | reflexivity].
Qed.

Lemma invoked_app t1 t2 : invoked (t1 ++ t2) = invoked t1 ++ invoked t2.
Proof. unfold invoked. apply omap_app. Qed.

Lemma output_actions_app t1 t2 :
  output_actions (t1 ++ t2) = output_actions t1 ++ output_actions t2.
Proof. unfold output_actions. apply List.filter_app. Qed.

Lemma log_if_silent v text end_ :
  invoked (log_if v text end_) = [] /\
  output_actions (log_if v text end_) = [].
Proof. destruct v; split; reflexivity. Qed.

Lemma announced_silent self message :
  invoked (announced Notes self message) = [] /\
  output_actions (announced Notes self message) = [].
Proof.
  unfold announced. destruct (Notes (note message)); [| split; reflexivity].
  destruct (is_note_on message); [apply log_if_silent | split; reflexivity].
Qed.

Lemma invoked_dispatched self message :
  invoked (dispatched self message) =
    match key_binds self !! note message with
    | Some _ => [H_translate_keystroke]
    | None =>
    match mouse_movement_binds self !! note message with
    | Some _ => [H_translate_mouse_move]
    | None =>
    match mouse_button_binds self !! note message with
    | Some _ => [H_translate_mouse_button]
    | None => []
    end end end.
Proof.
  unfold dispatched.
  destruct (key_binds self !! note message);
    [| destruct (mouse_movement_binds self !! note message);
       [| destruct (mouse_button_binds self !! note message)]];
    destruct (is_note_on message), (verbose self); reflexivity.
Qed.

(** Whatever the message, at most one handler is entered. *)
Lemma at_most_one_handler message self :
  (length (invoked (trace (triage_message Notes message self))) <= 1)%nat.
Proof.
  destruct (passes_filter self message) eqn:Hp;
    [| rewrite (triage_message_reject _ _ Hp); cbn; lia].
  destruct (is_note_on message) eqn:Hon.
  - destruct (Notes (note message)) as [name |] eqn:Hn;
      [| rewrite (triage_message_unnamed _ _ Hp Hon Hn); cbn; lia].
    rewrite triage_message_accept; [| assumption | rewrite Hn; eauto].
    unfold trace; cbn [snd]. rewrite invoked_app, invoked_dispatched.
    rewrite (proj1 (announced_silent _ _)).
    repeat case_match; cbn; lia.
  - rewrite triage_message_accept;
      [| assumption | rewrite Hon; discriminate].
    unfold trace; cbn [snd]. rewrite invoked_app, invoked_dispatched.
    rewrite (proj1 (announced_silent _ _)).
    repeat case_match; cbn; lia.
Qed.


(** C3.  For an event that passes the channel/kind filter (and, for an
    On event, whose note is a member of the enum of note names, which
    the log line needs), the note is resolved against the key bindings,
    then the movement bindings, then the button bindings; the handler of
    the first table that has the note is the only one entered, its
    effects are the effects of the dispatch, and never more than one
    handler is entered. *)
Theorem first_matching_handler_only (message : Message) (self : MIDIator) :
  passes_filter self message = true ->
  (is_note_on message = true -> is_Some (Notes (note message))) ->
  let n := note message in
  let r := triage_message Notes message self in
  let ran (h : Handler) (body : M unit) :=
    invoked (trace r) = [h] /\
    r = (result (body self), final (body self),
         announced Notes self message ++ trace (body self)) in
  (is_Some (key_binds self !! n) ->
     ran H_translate_keystroke (translate_keystroke message)) /\
  (key_binds self !! n = None ->
   is_Some (mouse_movement_binds self !! n) ->
     ran H_translate_mouse_move (translate_mouse_move message)) /\
  (key_binds self !! n = None ->
   mouse_movement_binds self !! n = None ->
   is_Some (mouse_button_binds self !! n) ->
     ran H_translate_mouse_button (translate_mouse_button message)) /\
  (key_binds self !! n = None ->
   mouse_movement_binds self !! n = None ->
   mouse_button_binds self !! n = None ->
     invoked (trace r) = []) /\
  (length (invoked (trace r)) <= 1)%nat.
Proof.
  intros Hp Hn n r ran. subst ran r n. cbn beta.
  assert (Hle := at_most_one_handler message self).
  rewrite (triage_message_accept _ _ Hp Hn) in *.
  unfold trace at 1 3 5 7; cbn [snd].
  rewrite invoked_app, invoked_dispatched, (proj1 (announced_silent _ _)).
  unfold delta, dispatched, contains_key. rewrite Hp.
  split; [intros [k Hk] | split; [intros Hk [d Hd] | split;
    [intros Hk Hd [b Hb] | split; [intros Hk Hd Hb |]]]].
  - rewrite Hk, (translate_keystroke_run _ _ _ Hk).
    cbn [andb negb result final trace fst snd].
    rewrite vadd_0, set_mouse_vector_id. split; reflexivity.
  - rewrite Hk, Hd, (translate_mouse_move_run _ _ _ Hd).
    split; reflexivity.
  - rewrite Hk, Hd, Hb, (translate_mouse_button_run _ _ _ Hb).
    cbn [andb negb result final trace fst snd].
    rewrite vadd_0, set_mouse_vector_id. split; reflexivity.
  - rewrite Hk, Hd, Hb. reflexivity.
  - exact Hle.
Qed.

Lemma passes_filter_on message self :
  type message = note_on -> channel message = midi_channel self ->
  passes_filter self message = true.
Proof.
  intros Ht Hc. unfold passes_filter. rewrite Ht, Hc, Z.eqb_refl.
  reflexivity.
Qed.

(** C5.  For a note that is in none of the three binding tables the
    dispatch sends nothing to the operating system, enters no handler
    and leaves the object as it was, whatever the kind of the event.
    An event that is not an On event leaves no trace at all, so the
    "unbound" notice is never written for an Off event; an On event on
    the configured channel writes, when [verbose] is set, the line that
    announces the note followed by the notice "Key not bound.". *)
Theorem unbound_note_only_logs_on_note_on (message : Message) (self : MIDIator) :
  key_binds self !! note message = None ->
  mouse_movement_binds self !! note message = None ->
  mouse_button_binds self !! note message = None ->
  let r := triage_message Notes message self in
  output_actions (trace r) = [] /\
  invoked (trace r) = [] /\
  final r = self /\
  (type message <> note_on -> trace r = []) /\
  (forall name,
     type message = note_on -> channel message = midi_channel self ->
     Notes (note message) = Some name -> verbose self = true ->
     r = (Ret tt, self,
          [print (received_line message name);
           print ("Key not bound." +:+ nl)])).
Proof.
  intros Hk Hd Hb r. subst r.
  destruct (passes_filter self message) eqn:Hp.
  2:{ rewrite (triage_message_reject _ _ Hp). repeat split; try reflexivity.
      intros name Ht Hc. rewrite (passes_filter_on _ _ Ht Hc) in Hp.
      discriminate. }
  destruct (is_note_on message) eqn:Hon.
  - assert (Ht : type message = note_on) by (apply is_note_on_iff, Hon).
    destruct (Notes (note message)) as [name |] eqn:Hn.
    + rewrite triage_message_accept; [| assumption | rewrite Hn; eauto].
      unfold delta, dispatched, announced, contains_key.
      rewrite Hp, Hk, Hd, Hb, Hn, Hon. cbn [andb negb trace final fst snd].
      rewrite vadd_0, set_mouse_vector_id.
      split; [destruct (verbose self); reflexivity |].
      split; [destruct (verbose self); reflexivity |].
      split; [reflexivity |]. split; [congruence |].
      intros name' _ _ [= <-] ->. unfold log_if.
      rewrite append_empty_r. reflexivity.
    + rewrite (triage_message_unnamed _ _ Hp Hon Hn).
      repeat split; try reflexivity. intros name _ _ [=].
  - assert (Ht : type message <> note_on).
    { intros Ht. apply is_note_on_iff in Ht. congruence. }
    rewrite triage_message_accept; [| assumption | rewrite Hon; discriminate].
    unfold delta, dispatched, announced, contains_key.
    rewrite Hp, Hk, Hd, Hb, Hon. cbn [andb negb trace final fst snd].
    rewrite vadd_0, set_mouse_vector_id.
    destruct (Notes (note message)); repeat split; try reflexivity;
      intros; contradiction.
Qed.

(** C10.  [MouseDirections] has a fifth member [STAY], with value (0,0),
    besides [LEFT], [RIGHT], [UP] and [DOWN].  A note bound to it in the
    movement table is dispatched to [translate_mouse_move] for its On and
    for its Off event: the object, and so the accumulator, is left exactly
    as it was, no other handler is entered and nothing is sent to the
    operating system, whatever the button table holds for that note. *)
Theorem stay_is_a_movement_match_without_motion :
  MouseDirections_value STAY = (0, 0) /\
  STAY <> LEFT /\ STAY <> RIGHT /\ STAY <> UP /\ STAY <> DOWN /\
  forall (message : Message) (self : MIDIator),
    passes_filter self message = true ->
    (is_note_on message = true -> is_Some (Notes (note message))) ->
    key_binds self !! note message = None ->
    mouse_movement_binds self !! note message = Some STAY ->
    let r := triage_message Notes message self in
    result r = Ret tt /\
    final r = self /\
    invoked (trace r) = [H_translate_mouse_move] /\
    output_actions (trace r) = [].
Proof.
  split; [reflexivity |]. do 4 (split; [discriminate |]).
  intros message self Hp Hn Hk Hd r. subst r.
  rewrite (triage_message_accept _ _ Hp Hn).
  cbn [result final trace fst snd].
  rewrite invoked_app, output_actions_app.
  destruct (announced_silent self message) as [-> ->].
  unfold delta, dispatched, contains_key, contribution.
  rewrite Hp, Hk, Hd. cbn [andb negb MouseDirections_value fst snd app].
  rewrite !Z.mul_0_r, !Z.mul_0_l, vadd_0, set_mouse_vector_id.
  repeat split; destruct (is_note_on message), (verbose self); reflexivity.
Qed.
End Triage.

(** ** The accumulator *)

Section Accumulator.
Import mido windows_enums midiator statements.
Variable Notes : Z -> option string.

Lemma vadd_assoc u v w : vadd (vadd u v) w = vadd u (vadd v w).
Proof. unfold vadd; cbn [fst snd]. f_equal; lia. Qed.


Lemma set_mouse_vector_twice v w self :
  set_mouse_vector v (set_mouse_vector w self) = set_mouse_vector v self.
Proof. reflexivity. Qed.

Lemma delta_set_mouse_vector v self message :
  delta (set_mouse_vector v self) message = delta self message.
Proof. reflexivity. Qed.

Lemma total_delta_set_mouse_vector v self messages :
  total_delta (set_mouse_vector v self) messages = total_delta self messages.
Proof.
  induction messages as [| m rest IH]; [reflexivity |].
  cbn [total_delta]. rewrite IH, delta_set_mouse_vector. reflexivity.
Qed.


(** What a single dispatch does to the object. *)
Lemma triage_message_final message self :
  let r := triage_message Notes message self in
  final r =
    set_mouse_vector
      (vadd (mouse_vector self)
            (if returned (result r) then delta self message else (0, 0)))
      self.
Proof.
  cbn zeta. destruct (passes_filter self message) eqn:Hp.
  2:{ rewrite (triage_message_reject _ _ _ Hp). unfold delta. rewrite Hp.
      cbn [result final returned fst snd andb].
      rewrite vadd_0, set_mouse_vector_id. reflexivity. }
  destruct (is_note_on message) eqn:Hon.
  - destruct (Notes (note message)) as [name |] eqn:Hn.
    + rewrite triage_message_accept; [| assumption | rewrite Hn; eauto].
      reflexivity.
    + rewrite (triage_message_unnamed _ _ _ Hp Hon Hn).
      cbn [result final returned fst snd].
      rewrite vadd_0, set_mouse_vector_id. reflexivity.
  - rewrite triage_message_accept; [| assumption | rewrite Hon; discriminate].
    reflexivity.
Qed.

Lemma triage_message_named message self :
  named Notes message ->
  let r := triage_message Notes message self in
  result r = Ret tt /\
  final r = set_mouse_vector (vadd (mouse_vector self) (delta self message)) self.
Proof.
  intros Hn. cbn zeta. destruct (passes_filter self message) eqn:Hp.
  - rewrite triage_message_accept by auto. split; reflexivity.
  - rewrite (triage_message_reject _ _ _ Hp). unfold delta. rewrite Hp.
    cbn [result final fst snd andb].
    rewrite vadd_0, set_mouse_vector_id. split; reflexivity.
Qed.

Lemma handle_messages_cons message rest self :
  handle_messages Notes (message :: rest) self =
    match triage_message Notes message self with
    | (Ret _, self1, t1) =>
        let '(r, self2, t2) := handle_messages Notes rest self1 in
        (r, self2, t1 ++ t2)
    | (Raise e, self1, t1) => (Raise e, self1, t1)
    end.
Proof. reflexivity. Qed.

(** When every note is named the loop consumes all the messages, and the
    vector moves by the sum of their contributions. *)
Lemma handle_messages_named messages : forall self,
  Forall (named Notes) messages ->
  let r := handle_messages Notes messages self in
  result r = Ret tt /\
  final r = set_mouse_vector
              (vadd (mouse_vector self) (total_delta self messages)) self.
Proof.
  induction messages as [| m rest IH]; intros self Hall; cbn zeta.
  - cbn [handle_messages total_delta]. unfold ret, result, final; cbn [fst snd].
    rewrite vadd_0, set_mouse_vector_id. split; reflexivity.
  - apply Forall_cons in Hall as [Hm Hrest].
    rewrite handle_messages_cons.
    destruct (triage_message_named m self Hm) as [Hr Hf].
    destruct (triage_message Notes m self) as [[r1 self1] t1].
    cbn [result final fst snd] in Hr, Hf. subst r1 self1.
    specialize (IH (set_mouse_vector
                      (vadd (mouse_vector self) (delta self m)) self) Hrest).
    cbn zeta in IH. destruct IH as [IHr IHf].
    destruct (handle_messages Notes rest _) as [[r2 self2] t2].
    cbn [result final fst snd] in *. split; [assumption |].
    rewrite IHf, total_delta_set_mouse_vector. cbn [total_delta].
    rewrite set_mouse_vector_twice. cbn [mouse_vector set_mouse_vector].
    rewrite vadd_assoc. reflexivity.
Qed.

(** A property of the object that every dispatch preserves holds after
    the loop, however the loop ends. *)
Lemma handle_messages_preserves (P : MIDIator -> Prop) :
  (forall message self,
      P self -> P (final (triage_message Notes message self))) ->
  forall messages self,
    P self -> P (final (handle_messages Notes messages self)).
Proof.
  intros Hstep messages.
  induction messages as [| m rest IH]; intros self HP; [exact HP |].
  rewrite handle_messages_cons. specialize (Hstep m self HP).
  destruct (triage_message Notes m self) as [[[[] | e] self1] t1];
    cbn [final fst snd] in Hstep; [| exact Hstep].
  specialize (IH self1 Hstep).
  destruct (handle_messages Notes rest self1) as [[r2 self2] t2].
  exact IH.
Qed.



End Accumulator.

(** ** The factor of the diagonal

    [math.sin] is the sine of an angle in radians.  The bounds below are
    on the real sine: of 45 (radians), which is what [sin(45)] computes,
    and of 45 degrees, which is pi/4 radians. *)

Section Factor.
Local Open Scope R_scope.

Lemma PI_between : 3.1415 < PI < 3.1417.
Proof.
  pose proof (PI_2_3_7_ineq 2) as [Hlo Hhi].
  unfold PI_2_3_7_tg, tg_alt, Ratan_seq in Hlo, Hhi.
  cbn [sum_f_R0 Nat.mul Nat.add pow INR] in Hlo, Hhi.
  split; lra.
Qed.

Lemma INR_fact (n : nat) : INR (fact n) = IZR (Z.of_nat (fact n)).
Proof. apply INR_IZR_INZ. Qed.

(** 45 radians is seven turns and 1.0177 radians. *)
Lemma sin_45_radians_between : 0.850 < sin 45 < 0.852.
Proof.
  pose proof PI_between as [Hlo Hhi].
  assert (Hper : sin 45 = sin (45 - 14 * PI)).
  { rewrite <- (sin_period (45 - 14 * PI) 7). f_equal. simpl INR. lra. }
  rewrite Hper.
  assert (H1 : sin 1.0162 <= sin (45 - 14 * PI)) by (apply sin_incr_1; lra).
  assert (H2 : sin (45 - 14 * PI) <= sin 1.019) by (apply sin_incr_1; lra).
  assert (H3 : sin_lb 1.0162 <= sin 1.0162) by (apply SIN; lra).
  assert (H4 : sin 1.019 <= sin_ub 1.019) by (apply SIN; lra).
  unfold sin_lb, sin_ub, sin_approx, sin_term in H3, H4.
  cbn [sum_f_R0 Nat.mul Nat.add pow] in H3, H4.
  rewrite !INR_fact in H3. rewrite !INR_fact in H4.
  change (Z.of_nat (fact 1)) with 1%Z in H3, H4.
  change (Z.of_nat (fact 3)) with 6%Z in H3, H4.
  change (Z.of_nat (fact 5)) with 120%Z in H3, H4.
  assert (F7 : Z.of_nat (fact 7) = 5040%Z) by (vm_compute; reflexivity).
  assert (F9 : Z.of_nat (fact 9) = 362880%Z) by (vm_compute; reflexivity).
  rewrite F7 in H3, H4. rewrite F9 in H4.
  split; lra.
Qed.

Lemma sqrt_2_between : 1.41421 < sqrt 2 < 1.41422.
Proof.
  split.
  - rewrite <- (sqrt_square 1.41421) by lra. apply sqrt_lt_1; lra.
  - rewrite <- (sqrt_square 1.41422) by lra. apply sqrt_lt_1; lra.
Qed.

Lemma sin_45_degrees_between : 0.7071 < sin (45 * (PI / 180)) < 0.7072.
Proof.
  replace (45 * (PI / 180)) with (PI / 4) by lra.
  rewrite sin_PI4. pose proof sqrt_2_between as [Hlo Hhi].
  split; (apply Rmult_lt_reg_r with (sqrt 2); [lra |]);
    unfold Rdiv; rewrite Rmult_assoc, Rinv_l by lra; lra.
Qed.

(** The two binary64 constants of [PyNum] are the sines they are said to
    be, up to the width of the bounds above; the factor the program uses
    is the first, more than 0.14 away from the sine of 45 degrees. *)
Lemma sin_45_is_in_radians :
  Rabs (PyNum.real_value PyNum.sin_45_radians - sin 45) < 0.002 /\
  Rabs (PyNum.real_value PyNum.sin_45_degrees - sin (45 * (PI / 180)))
    < 0.0001 /\
  0.14 < PyNum.real_value PyNum.sin_45_radians - sin (45 * (PI / 180)).
Proof.
  pose proof sin_45_radians_between as [R1 R2].
  pose proof sin_45_degrees_between as [D1 D2].
  assert (VR : 0.8509 < PyNum.real_value PyNum.sin_45_radians < 0.8510).
  { unfold PyNum.real_value, PyNum.sin_45_radians, powerRZ.
    change (Pos.to_nat 53) with 53%nat. cbn [pow]. split; lra. }
  assert (VD : 0.7071 < PyNum.real_value PyNum.sin_45_degrees < 0.7072).
  { unfold PyNum.real_value, PyNum.sin_45_degrees, powerRZ.
    change (Pos.to_nat 53) with 53%nat. cbn [pow]. split; lra. }
  destruct VR as [VR1 VR2], VD as [VD1 VD2].
  repeat split; try (apply Rabs_def1); lra.
Qed.
End Factor.

(** ** The pump *)

Section Pump.
Import mido windows_enums midiator statements.

(** The guard of the scaling: [abs(x) == abs(y) and x != 0]. *)
Lemma mouse_handler_iteration_unscaled sin_45 self x y :
  mouse_vector self = (x, y) ->
  (Z.abs x =? Z.abs y) && negb (x =? 0) = false ->
  mouse_handler_iteration sin_45 self =
    (Ret tt, self,
     [send_mouse_movement_event x y; time_sleep (mouse_refresh self)]).
Proof.
  intros Hv Hg. unfold mouse_handler_iteration.
  rewrite bind_get, Hv, Hg. reflexivity.
Qed.

(** On the diagonal both components are converted to floats, multiplied
    by the factor and truncated. *)
Lemma mouse_handler_iteration_scaled sin_45 self x y fx fy xi yi :
  mouse_vector self = (x, y) ->
  Z.abs x = Z.abs y -> x <> 0 ->
  PyNum.float_of_int x = Ret fx ->
  PyNum.float_of_int y = Ret fy ->
  PyNum.int_of_float (PyNum.float_mul fx sin_45) = Ret xi ->
  PyNum.int_of_float (PyNum.float_mul fy sin_45) = Ret yi ->
  mouse_handler_iteration sin_45 self =
    (Ret tt, self,
     [send_mouse_movement_event xi yi; time_sleep (mouse_refresh self)]).
Proof.
  intros Hv Habs Hx Hfx Hfy Hxi Hyi. unfold mouse_handler_iteration.
  rewrite bind_get, Hv.
  apply Z.eqb_eq in Habs. apply Z.eqb_neq in Hx. rewrite Habs, Hx.
  cbn [andb negb]. unfold bind, lift, PyNum.mul.
  rewrite Hfx, Hfy. cbn [ret fst snd PyNum.int]. rewrite Hxi, Hyi.
  reflexivity.
Qed.

(** One iteration never writes to the object. *)
Lemma mouse_handler_iteration_final sin_45 self :
  final (mouse_handler_iteration sin_45 self) = self.
Proof.
  unfold mouse_handler_iteration. rewrite bind_get.
  destruct (mouse_vector self) as [x y].
  destruct ((Z.abs x =? Z.abs y) && negb (x =? 0)); [| reflexivity].
  unfold bind, lift, ret, raise, emit, get, final.
  destruct (PyNum.mul (PyNum.PyInt x) (PyNum.PyFloat sin_45)) as [x' | e];
    [| reflexivity].
  destruct (PyNum.mul (PyNum.PyInt y) (PyNum.PyFloat sin_45)) as [y' | e];
    [| reflexivity].
  cbn [fst snd].
  destruct (PyNum.int x') as [xi | e]; [| reflexivity].
  destruct (PyNum.int y') as [yi | e]; reflexivity.
Qed.

(** Whether one iteration returns, and what it sends, is determined by
    the vector it reads. *)
Lemma mouse_handler_iteration_reads sin_45 self1 self2 :
  mouse_vector self1 = mouse_vector self2 ->
  result (mouse_handler_iteration sin_45 self1)
    = result (mouse_handler_iteration sin_45 self2) /\
  output_actions (trace (mouse_handler_iteration sin_45 self1))
    = output_actions (trace (mouse_handler_iteration sin_45 self2)).
Proof.
  intros Hv. unfold mouse_handler_iteration. rewrite !bind_get, Hv.
  destruct (mouse_vector self2) as [x y].
  destruct ((Z.abs x =? Z.abs y) && negb (x =? 0)).
  - unfold bind, lift, ret, raise, emit, get, result, trace.
    destruct (PyNum.mul (PyNum.PyInt x) (PyNum.PyFloat sin_45)) as [x' | e];
      [| split; reflexivity].
    destruct (PyNum.mul (PyNum.PyInt y) (PyNum.PyFloat sin_45)) as [y' | e];
      [| split; reflexivity].
    cbn [fst snd].
    destruct (PyNum.int x') as [xi | e]; [| split; reflexivity].
    destruct (PyNum.int y') as [yi | e]; split; reflexivity.
  - split; reflexivity.
Qed.

Lemma mouse_handler_while_succ sin_45 n self :
  mouse_handler_while sin_45 (S n) self =
    match mouse_handler_iteration sin_45 self with
    | (Ret _, self1, t1) =>
        let '(r, self2, t2) := mouse_handler_while sin_45 n self1 in
        (r, self2, t1 ++ t2)
    | (Raise e, self1, t1) => (Raise e, self1, t1)
    end.
Proof. reflexivity. Qed.

Lemma mouse_handler_while_final sin_45 n self :
  final (mouse_handler_while sin_45 n self) = self.
Proof.
  induction n as [| n IH]; [reflexivity |].
  rewrite mouse_handler_while_succ.
  pose proof (mouse_handler_iteration_final sin_45 self) as Hf.
  destruct (mouse_handler_iteration sin_45 self) as [[[[] | e] self1] t1];
    cbn [final fst snd] in Hf; subst self1; [| reflexivity].
  destruct (mouse_handler_while sin_45 n self) as [[r2 self2] t2].
  exact IH.
Qed.

(** While the iterations return, every one of them leaves the same
    events: nothing is carried from one iteration to the next. *)
Lemma mouse_handler_while_trace sin_45 n self :
  result (mouse_handler_iteration sin_45 self) = Ret tt ->
  mouse_handler_while sin_45 n self =
    (Ret tt, self,
     mjoin (replicate n (trace (mouse_handler_iteration sin_45 self)))).
Proof.
  intros Hr. induction n as [| n IH]; [reflexivity |].
  rewrite mouse_handler_while_succ.
  pose proof (mouse_handler_iteration_final sin_45 self) as Hf.
  destruct (mouse_handler_iteration sin_45 self) as [[r1 self1] t1].
  cbn [final result trace fst snd] in *. subst r1 self1.
  rewrite IH. reflexivity.
Qed.

(** *** The two threads together *)

Lemma run_main_ended Notes schedule : forall mouse_alive self,
  fst (run Notes schedule false mouse_alive self) = self.
Proof.
  induction schedule as [| [| m] rest IH]; intros alive self;
    cbn [run]; [reflexivity | | apply IH].
  destruct alive; [| apply IH].
  pose proof (mouse_handler_iteration_final PyNum.sin_45_radians self) as Hf.
  destruct (mouse_handler_iteration _ self) as [[r self1] t1].
  cbn [final fst snd] in Hf. subst self1.
  specialize (IH (returned r) self).
  destruct (run Notes rest false (returned r) self) as [self2 t2].
  exact IH.
Qed.

(** The object after a schedule is the object after the messages of the
    schedule alone: the iterations of the mouse loop leave no mark. *)
Lemma run_final Notes schedule : forall mouse_alive self,
  fst (run Notes schedule true mouse_alive self)
    = final (handle_messages Notes (delivered schedule) self).
Proof.
  induction schedule as [| [| m] rest IH]; intros alive self;
    cbn [run]; [reflexivity | |].
  - change (delivered (Tick :: rest)) with (delivered rest).
    destruct alive; [| apply IH].
    pose proof (mouse_handler_iteration_final PyNum.sin_45_radians self) as Hf.
    destruct (mouse_handler_iteration _ self) as [[r self1] t1].
    cbn [final fst snd] in Hf. subst self1.
    specialize (IH (returned r) self).
    destruct (run Notes rest true (returned r) self) as [self2 t2].
    exact IH.
  - change (delivered (Deliver m :: rest)) with (m :: delivered rest).
    rewrite handle_messages_cons.
    destruct (triage_message Notes m self) as [[[[] | e] self1] t1];
      cbn [returned].
    + specialize (IH alive self1).
      destruct (run Notes rest true alive self1) as [self2 t2].
      destruct (handle_messages Notes (delivered rest) self1)
        as [[r3 self3] t3].
      exact IH.
    + pose proof (run_main_ended Notes rest alive self1) as Hd.
      destruct (run Notes rest false alive self1) as [self2 t2].
      exact Hd.
Qed.

(** C1.  On the diagonal the two components are scaled and then
    truncated ([mouse_handler_iteration_scaled]), but the factor of
    [mouse_handler] is [sin(45)] with 45 taken in radians, about 0.8509
    and not 0.7071 ([sin_45_is_in_radians]): with the vector at (4,4) one
    iteration of the loop sends [send_mouse_movement_event(3, 3)].  With
    the factor sin(45 degrees) the same iteration would send (2,2). *)
Theorem diagonal_4_4_moves_by_3_3 (self : MIDIator) :
  mouse_handler 1 (set_mouse_vector (4, 4) self) =
    (Ret tt, set_mouse_vector (4, 4) self,
     [send_mouse_movement_event 3 3; time_sleep (mouse_refresh self)]) /\
  mouse_handler_while PyNum.sin_45_degrees 1 (set_mouse_vector (4, 4) self) =
    (Ret tt, set_mouse_vector (4, 4) self,
     [send_mouse_movement_event 2 2; time_sleep (mouse_refresh self)]).
Proof. split; reflexivity. Qed.

(** C6.  When the two components of the vector differ in magnitude (or
    the first is zero) the iteration does not scale: it sends the two
    components as they are, [int] being the identity on ints.  With the
    vector at (4,0) it sends [send_mouse_movement_event(4, 0)]. *)
Theorem off_diagonal_is_sent_unscaled
    (sin_45 : PyNum.float) (self : MIDIator) (x y : Z) :
  mouse_vector self = (x, y) ->
  Z.abs x <> Z.abs y \/ x = 0 ->
  mouse_handler_iteration sin_45 self =
    (Ret tt, self,
     [send_mouse_movement_event x y; time_sleep (mouse_refresh self)]) /\
  mouse_handler 1 (set_mouse_vector (4, 0) self) =
    (Ret tt, set_mouse_vector (4, 0) self,
     [send_mouse_movement_event 4 0; time_sleep (mouse_refresh self)]).
Proof.
  intros Hv Hg. split; [| reflexivity].
  apply mouse_handler_iteration_unscaled; [exact Hv |].
  destruct Hg as [Hne | ->]; [| rewrite andb_comm; reflexivity].
  apply andb_false_intro1. apply Z.eqb_neq. exact Hne.
Qed.

(** C7.  The loop of [mouse_handler] never writes to the object: after
    any number of iterations the object, and with it the vector, is the
    one the loop started from.  Whether an iteration returns and what it
    sends depends on the vector alone; as long as the vector stays the
    same every iteration leaves the same events, so nothing is carried
    from one iteration to the next.  Interleaved with the main loop, the
    iterations leave no mark on the object: it ends as the delivered
    messages alone leave it. *)
Theorem mouse_handler_never_writes_the_vector
    (sin_45 : PyNum.float) (self : MIDIator) :
  (forall n, final (mouse_handler_while sin_45 n self) = self) /\
  (forall n, final (mouse_handler n self) = self) /\
  (forall self2,
     mouse_vector self2 = mouse_vector self ->
     result (mouse_handler_iteration sin_45 self2)
       = result (mouse_handler_iteration sin_45 self) /\
     output_actions (trace (mouse_handler_iteration sin_45 self2))
       = output_actions (trace (mouse_handler_iteration sin_45 self))) /\
  (forall n,
     result (mouse_handler_iteration sin_45 self) = Ret tt ->
     trace (mouse_handler_while sin_45 n self)
       = mjoin (replicate n (trace (mouse_handler_iteration sin_45 self)))) /\
  (forall Notes schedule mouse_alive,
     fst (run Notes schedule true mouse_alive self)
       = final (handle_messages Notes (delivered schedule) self)).
Proof.
  split; [intros n; apply mouse_handler_while_final |].
  split; [intros n; apply mouse_handler_while_final |].
  split; [intros self2 Hv; apply mouse_handler_iteration_reads, Hv |].
  split; [| intros; apply run_final].
  intros n Hr. rewrite (mouse_handler_while_trace _ n _ Hr). reflexivity.
Qed.
End Pump.

(** ** Device resolution *)

Section Device.
Import mido windows_enums midiator statements midi_io.
Variable open_input : string -> outcome Port.


Lemma find_device_for_first identifier before name after :
  Forall (fun p => ~ ci_substring identifier p) before ->
  ci_substring identifier name ->
  find_device_for open_input identifier (before ++ name :: after)
    = Some (open_input name).
Proof.
  intros Hbefore Hname.
  induction Hbefore as [| p rest Hp _ IH]; cbn [find_device_for app].
  - apply contains_lower_iff in Hname. rewrite Hname. reflexivity.
  - destruct (PyStr.contains _ _) eqn:Hc; [| exact IH].
    apply contains_lower_iff in Hc. contradiction.
Qed.

(** The first match is the only port tried: when it cannot be opened the
    process exits, whatever other ports would match. *)
Lemma find_device_busy identifier before name after :
  Forall (fun p => ~ ci_substring identifier p) before ->
  ci_substring identifier name ->
  open_input name = Raise OSError ->
  find_device (Ret (before ++ name :: after)) open_input identifier
    = (Raise (SystemExit 1), [print (device_in_use identifier)]).
Proof.
  intros Hb Hn Ho. unfold find_device.
  rewrite (find_device_for_first _ _ _ _ Hb Hn), Ho. reflexivity.
Qed.

(** The match ignores the case of the identifier and of the name. *)
Lemma ci_substring_upper identifier name :
  ci_substring identifier name <->
  ci_substring (PyStr.upper identifier) (PyStr.upper name).
Proof.
  rewrite <- !contains_lower_iff, !lower_upper. reflexivity.
Qed.

End Device.

(** * The theorems on the concrete configuration *)

Section Witnesses.
Import mido windows_enums midiator statements midi_io.
Import example.

Lemma named_example (n : Z) :
  (0 <=? n) && (n <=? 127) = true -> is_Some (Notes n).
Proof. intros H. unfold Notes. rewrite H. eexists. reflexivity. Qed.
End Witnesses.


Lemma first_matching_handler_only_witness :
  statements.passes_filter example.midiator (example.on 68) = true /\
  invoked (midiator.trace (midiator.triage_message example.Notes
                             (example.on 68) example.midiator))
    = [H_translate_mouse_move].
Proof.
  assert (Hp : statements.passes_filter example.midiator (example.on 68) = true)
    by reflexivity.
  split; [exact Hp |].
  refine (proj1 (proj1 (proj2 (first_matching_handler_only example.Notes
            (example.on 68) example.midiator Hp _)) _ _)).
  - intros _. apply named_example. reflexivity.
  - reflexivity.
  - eexists. reflexivity.
Defined.


Lemma unbound_note_only_logs_on_note_on_witness :
  (midiator.key_binds example.midiator !! 1 = None /\
   midiator.mouse_movement_binds example.midiator !! 1 = None /\
   midiator.mouse_button_binds example.midiator !! 1 = None) /\
  midiator.trace (midiator.triage_message example.Notes (example.off 1)
                    example.midiator) = [] /\
  midiator.triage_message example.Notes (example.on 1) example.midiator
    = (Ret tt, example.midiator,
       [print (statements.received_line (example.on 1) "N1");
        print ("Key not bound." +:+ nl)]).
Proof.
  assert (Hk : midiator.key_binds example.midiator !! 1 = None) by reflexivity.
  assert (Hd : midiator.mouse_movement_binds example.midiator !! 1 = None)
    by reflexivity.
  assert (Hb : midiator.mouse_button_binds example.midiator !! 1 = None)
    by reflexivity.
  split; [exact (conj Hk (conj Hd Hb)) |]. split.
  - refine (proj1 (proj2 (proj2 (proj2 (unbound_note_only_logs_on_note_on
              example.Notes (example.off 1) example.midiator Hk Hd Hb)))) _).
    discriminate.
  - refine (proj2 (proj2 (proj2 (proj2 (unbound_note_only_logs_on_note_on
              example.Notes (example.on 1) example.midiator Hk Hd Hb))))
              "N1" _ _ _ _); reflexivity.
Defined.

Lemma stay_is_a_movement_match_without_motion_witness :
  (statements.passes_filter example.midiator (example.off 68) = true /\
   midiator.key_binds example.midiator !! 68 = None /\
   midiator.mouse_movement_binds example.midiator !! 68
     = Some windows_enums.STAY /\
   midiator.mouse_button_binds example.midiator !! 68
     = Some (windows_enums.RIGHT_CLICK, windows_enums.RIGHT_RELEASE)) /\
  midiator.final (midiator.triage_message example.Notes (example.off 68)
                    example.midiator) = example.midiator /\
  invoked (midiator.trace (midiator.triage_message example.Notes
                             (example.off 68) example.midiator))
    = [H_translate_mouse_move].
Proof.
  assert (Hp : statements.passes_filter example.midiator (example.off 68) = true)
    by reflexivity.
  assert (Hk : midiator.key_binds example.midiator !! 68 = None) by reflexivity.
  assert (Hd : midiator.mouse_movement_binds example.midiator !! 68
               = Some windows_enums.STAY) by reflexivity.
  split; [repeat split; assumption || reflexivity |].
  assert (Hn : midiator.is_note_on (example.off 68) = true ->
               is_Some (example.Notes (mido.note (example.off 68)))).
  { intros _. apply named_example. reflexivity. }
  pose proof (proj2 (proj2 (proj2 (proj2 (proj2
    (stay_is_a_movement_match_without_motion example.Notes)))))
    (example.off 68) example.midiator Hp Hn Hk Hd) as H.
  cbn zeta in H. split; [exact (proj1 (proj2 H)) |].
  exact (proj1 (proj2 (proj2 H))).
Defined.



Lemma off_diagonal_is_sent_unscaled_witness :
  (midiator.mouse_vector (midiator.set_mouse_vector (8, -4) example.midiator)
     = (8, -4) /\
   (Z.abs 8 <> Z.abs (-4) \/ 8 = 0)) /\
  midiator.mouse_handler_iteration PyNum.sin_45_radians
    (midiator.set_mouse_vector (8, -4) example.midiator)
  = (Ret tt, midiator.set_mouse_vector (8, -4) example.midiator,
     [send_mouse_movement_event 8 (-4);
      time_sleep midiator.default_mouse_refresh]).
Proof.
  assert (Hv : midiator.mouse_vector
                 (midiator.set_mouse_vector (8, -4) example.midiator)
               = (8, -4)) by reflexivity.
  assert (Hg : Z.abs 8 <> Z.abs (-4) \/ 8 = 0) by (left; discriminate).
  split; [exact (conj Hv Hg) |].
  exact (proj1 (off_diagonal_is_sent_unscaled PyNum.sin_45_radians _ 8 (-4)
                  Hv Hg)).
Defined.

Lemma mouse_handler_never_writes_the_vector_witness :
  (midiator.mouse_vector (midiator.set_mouse_vector (4, 4) example.midiator)
     = midiator.mouse_vector
         (midiator.set_mouse_vector (4, 4) example.midiator) /\
   midiator.result
     (midiator.mouse_handler_iteration PyNum.sin_45_radians
        (midiator.set_mouse_vector (4, 4) example.midiator)) = Ret tt) /\
  midiator.trace
    (midiator.mouse_handler_while PyNum.sin_45_radians 3
       (midiator.set_mouse_vector (4, 4) example.midiator))
  = mjoin (replicate 3
      (midiator.trace
         (midiator.mouse_handler_iteration PyNum.sin_45_radians
            (midiator.set_mouse_vector (4, 4) example.midiator)))) /\
  output_actions
    (midiator.trace
       (midiator.mouse_handler_iteration PyNum.sin_45_radians
          (midiator.set_mouse_vector (4, 4) example.midiator)))
  = output_actions
      (midiator.trace
         (midiator.mouse_handler_iteration PyNum.sin_45_radians
            (midiator.set_mouse_vector (4, 4) example.midiator))).
Proof.
  assert (Hr : midiator.result
                 (midiator.mouse_handler_iteration PyNum.sin_45_radians
                    (midiator.set_mouse_vector (4, 4) example.midiator))
               = Ret tt) by reflexivity.
  split; [exact (conj eq_refl Hr) |].
  pose proof (mouse_handler_never_writes_the_vector PyNum.sin_45_radians
                (midiator.set_mouse_vector (4, 4) example.midiator)) as H.
  split.
  - exact (proj1 (proj2 (proj2 (proj2 H))) 3%nat Hr).
  - exact (proj2 (proj1 (proj2 (proj2 H)) _ eq_refl)).
Defined.



(** * Further properties *)

(** ** The handlers and the dispatcher *)

Section Dispatch.
Import mido windows_enums midiator statements further.
Variable Notes : Z -> option string.

Lemma output_actions_dispatched self message :
  output_actions (dispatched self message) =
    match key_binds self !! note message with
    | Some k =>
        [send_key_event k (if is_note_on message then PRESS else RELEASE)]
    | None =>
    match mouse_movement_binds self !! note message with
    | Some _ => []
    | None =>
    match mouse_button_binds self !! note message with
    | Some b =>
        [send_mouse_button_event
           (if is_note_on message then fst b else snd b)]
    | None => []
    end end end.
Proof.
  unfold dispatched.
  destruct (key_binds self !! note message);
    [| destruct (mouse_movement_binds self !! note message);
       [| destruct (mouse_button_binds self !! note message)]];
    destruct (is_note_on message), (verbose self); reflexivity.
Qed.

(** What the dispatch of an accepted message sends. *)
Lemma output_actions_accept message self :
  passes_filter self message = true ->
  (is_note_on message = true -> is_Some (Notes (note message))) ->
  output_actions (trace (triage_message Notes message self))
    = output_actions (dispatched self message).
Proof.
  intros Hp Hn. rewrite (triage_message_accept _ _ _ Hp Hn).
  unfold trace; cbn [snd]. rewrite output_actions_app.
  rewrite (proj2 (announced_silent Notes self message)). reflexivity.
Qed.

(** X1.  A handler called on a note that its table lacks raises
    [KeyError] on the lookup, before anything is sent and without touching
    the object: it is the [in] tests of [triage_message] that keep the
    three lookups safe. *)
Theorem handler_on_missing_key_raises (message : Message) (self : MIDIator) :
  (key_binds self !! note message = None ->
   result (translate_keystroke message self) = Raise KeyError /\
   final (translate_keystroke message self) = self /\
   output_actions (trace (translate_keystroke message self)) = []) /\
  (mouse_movement_binds self !! note message = None ->
   result (translate_mouse_move message self) = Raise KeyError /\
   final (translate_mouse_move message self) = self /\
   output_actions (trace (translate_mouse_move message self)) = []) /\
  (mouse_button_binds self !! note message = None ->
   result (translate_mouse_button message self) = Raise KeyError /\
   final (translate_mouse_button message self) = self /\
   output_actions (trace (translate_mouse_button message self)) = []).
Proof.
  split; [| split]; intros Hnone.
  - unfold translate_keystroke, bind, get, emit, getitem, raise.
    cbn [fst snd]. rewrite Hnone. destruct (is_note_on message);
      repeat split; reflexivity.
  - unfold translate_mouse_move, bind, get, emit, getitem, raise.
    cbn [fst snd]. rewrite Hnone. destruct (is_note_on message);
      repeat split; reflexivity.
  - unfold translate_mouse_button, bind, get, emit, getitem, raise.
    cbn [fst snd]. rewrite Hnone. destruct (is_note_on message);
      repeat split; reflexivity.
Qed.


(** X3.  One message makes at most one call into [windows_io], and never
    one of the pump's ([send_mouse_movement_event], [time.sleep]); a note
    that reaches [translate_mouse_move] makes none. *)
Theorem at_most_one_output_action (message : Message) (self : MIDIator) :
  let r := triage_message Notes message self in
  (length (output_actions (trace r)) <= 1)%nat /\
  List.filter is_pump_event (trace r) = [] /\
  (moves self message = true -> output_actions (trace r) = []).
Proof.
  cbn zeta. destruct (passes_filter self message) eqn:Hp.
  2:{ rewrite (triage_message_reject _ _ _ Hp). cbn.
      split; [lia |]. split; [reflexivity | reflexivity]. }
  assert (Hpump : forall v text e, List.filter is_pump_event (log_if v text e) = []).
  { intros [] text e; reflexivity. }
  destruct (Notes (note message)) as [name |] eqn:Hn;
    destruct (is_note_on message) eqn:Hon.
  3:{ rewrite (triage_message_unnamed _ _ _ Hp Hon Hn). cbn.
      split; [lia |]. split; reflexivity. }
  all: rewrite triage_message_accept;
         [| assumption | rewrite ?Hn, ?Hon; eauto; discriminate].
  all: unfold trace; cbn [snd]; rewrite output_actions_app;
       rewrite (proj2 (announced_silent Notes self message));
       rewrite List.filter_app, output_actions_dispatched;
       unfold announced, dispatched, moves, contains_key;
       rewrite ?Hn, Hon, Hp; cbn [andb app].
  all: destruct (key_binds self !! note message);
         [| destruct (mouse_movement_binds self !! note message);
            [| destruct (mouse_button_binds self !! note message)]];
       destruct (verbose self); cbn; (split; [lia |]);
       (split; [reflexivity | intros H; first [reflexivity | discriminate H]]).
Qed.
End Dispatch.

(** ** Sequences of messages *)

Section Sequences.
Import mido windows_enums midiator statements further.
Variable Notes : Z -> option string.

Lemma passes_filter_note_on self n :
  passes_filter self (mkMessage note_on (midi_channel self) n) = true.
Proof. unfold passes_filter. cbn [channel type]. rewrite Z.eqb_refl. reflexivity. Qed.

Lemma passes_filter_note_off self n :
  passes_filter self (mkMessage note_off (midi_channel self) n) = true.
Proof. unfold passes_filter. cbn [channel type]. rewrite Z.eqb_refl. reflexivity. Qed.

(** What the loop sends is what its messages send one by one; the vector
    plays no part in it. *)
Lemma output_actions_handle_messages messages : forall self,
  Forall (named Notes) messages ->
  output_actions (trace (handle_messages Notes messages self))
    = flat_map (sent self) messages.
Proof.
  induction messages as [| m rest IH]; intros self Hall; [reflexivity |].
  apply Forall_cons in Hall as [Hm Hrest].
  rewrite handle_messages_cons. cbn [flat_map].
  assert (Hone : output_actions (trace (triage_message Notes m self))
                 = sent self m).
  { unfold sent. destruct (passes_filter self m) eqn:Hp.
    - apply output_actions_accept; auto.
    - rewrite (triage_message_reject _ _ _ Hp). reflexivity. }
  destruct (triage_message_named Notes m self Hm) as [Hr Hf].
  destruct (triage_message Notes m self) as [[r1 self1] t1].
  cbn [result final trace fst snd] in Hr, Hf, Hone. subst r1 self1.
  specialize (IH (set_mouse_vector
                    (vadd (mouse_vector self) (delta self m)) self) Hrest).
  destruct (handle_messages Notes rest _) as [[r2 self2] t2].
  cbn [trace snd] in *. rewrite output_actions_app, Hone, IH.
  reflexivity.
Qed.

(** X4.  A note bound to a key: On then Off sends exactly the press of
    that key followed by its release, and leaves the object as it was. *)
Theorem key_on_off_presses_then_releases
    (self : MIDIator) (n : Z) (k : DICodes) :
  key_binds self !! n = Some k ->
  is_Some (Notes n) ->
  let on := mkMessage note_on (midi_channel self) n in
  let off := mkMessage note_off (midi_channel self) n in
  let r := handle_messages Notes [on; off] self in
  result r = Ret tt /\ final r = self /\
  output_actions (trace r) = [send_key_event k PRESS; send_key_event k RELEASE].
Proof.
  intros Hk Hn on off r. subst r.
  assert (Hall : Forall (named Notes) [on; off]) by (repeat constructor; exact Hn).
  destruct (handle_messages_named Notes _ self Hall) as [Hr Hf].
  split; [exact Hr |]. split.
  - rewrite Hf. cbn [total_delta]. unfold delta, contains_key.
    cbn [note on off]. rewrite Hk. rewrite !andb_false_r.
    rewrite !vadd_0. apply set_mouse_vector_id.
  - rewrite (output_actions_handle_messages _ self Hall).
    cbn [flat_map]. unfold sent. subst on off.
    rewrite passes_filter_note_on, passes_filter_note_off.
    rewrite !output_actions_dispatched. cbn [note]. rewrite Hk. reflexivity.
Qed.

(** X5.  A note bound to a mouse button (and to no key and no movement):
    On then Off sends the press flag of its pair followed by the release
    flag, and leaves the object as it was. *)
Theorem button_on_off_clicks_then_releases
    (self : MIDIator) (n : Z) (click release : MouseFlags) :
  key_binds self !! n = None ->
  mouse_movement_binds self !! n = None ->
  mouse_button_binds self !! n = Some (click, release) ->
  is_Some (Notes n) ->
  let on := mkMessage note_on (midi_channel self) n in
  let off := mkMessage note_off (midi_channel self) n in
  let r := handle_messages Notes [on; off] self in
  result r = Ret tt /\ final r = self /\
  output_actions (trace r)
    = [send_mouse_button_event click; send_mouse_button_event release].
Proof.
  intros Hk Hd Hb Hn on off r. subst r.
  assert (Hall : Forall (named Notes) [on; off]) by (repeat constructor; exact Hn).
  destruct (handle_messages_named Notes _ self Hall) as [Hr Hf].
  split; [exact Hr |]. split.
  - rewrite Hf. cbn [total_delta]. unfold delta, contains_key.
    cbn [note on off]. rewrite Hk, Hd. rewrite !Tauto.if_same.
    rewrite !vadd_0. apply set_mouse_vector_id.
  - rewrite (output_actions_handle_messages _ self Hall).
    cbn [flat_map]. unfold sent. subst on off.
    rewrite passes_filter_note_on, passes_filter_note_off.
    rewrite !output_actions_dispatched. cbn [note]. rewrite Hk, Hd, Hb.
    reflexivity.
Qed.













End Sequences.


(** ** The two threads and the whole script *)

Section Threads.
Import mido windows_enums midiator statements further.
Variable Notes : Z -> option string.

Lemma log_if_not_pump v text end_ :
  List.filter not_pump_event (log_if v text end_) = log_if v text end_.
Proof. destruct v; reflexivity. Qed.

(** The dispatcher leaves none of the events of the pump. *)
Lemma triage_message_not_pump message self :
  List.filter not_pump_event (trace (triage_message Notes message self))
    = trace (triage_message Notes message self).
Proof.
  destruct (passes_filter self message) eqn:Hp;
    [| rewrite (triage_message_reject _ _ _ Hp); reflexivity].
  destruct (Notes (note message)) as [name |] eqn:Hn;
    destruct (is_note_on message) eqn:Hon.
  3:{ rewrite (triage_message_unnamed _ _ _ Hp Hon Hn). reflexivity. }
  all: rewrite triage_message_accept;
         [| assumption | rewrite ?Hn, ?Hon; eauto; discriminate].
  all: unfold trace; cbn [snd]; unfold announced, dispatched;
       rewrite ?Hn, Hon.
  all: destruct (key_binds self !! note message);
         [| destruct (mouse_movement_binds self !! note message);
            [| destruct (mouse_button_binds self !! note message)]];
       destruct (verbose self); reflexivity.
Qed.

(** An iteration of the pump leaves only events of the pump. *)
Lemma mouse_handler_iteration_only_pump sin_45 self :
  List.filter not_pump_event (trace (mouse_handler_iteration sin_45 self)) = [].
Proof.
  unfold mouse_handler_iteration. rewrite bind_get.
  destruct (mouse_vector self) as [x y].
  destruct ((Z.abs x =? Z.abs y) && negb (x =? 0)); [| reflexivity].
  unfold bind, lift, ret, raise, emit, get, trace.
  destruct (PyNum.mul (PyNum.PyInt x) (PyNum.PyFloat sin_45)) as [x' | e];
    [| reflexivity].
  destruct (PyNum.mul (PyNum.PyInt y) (PyNum.PyFloat sin_45)) as [y' | e];
    [| reflexivity].
  cbn [fst snd].
  destruct (PyNum.int x') as [xi | e]; [| reflexivity].
  destruct (PyNum.int y') as [yi | e]; reflexivity.
Qed.

Lemma run_main_ended_only_pump schedule : forall mouse_alive self,
  List.filter not_pump_event (snd (run Notes schedule false mouse_alive self))
    = [].
Proof.
  induction schedule as [| [| m] rest IH]; intros alive self;
    cbn [run]; [reflexivity | | apply IH].
  destruct alive; [| apply IH].
  pose proof (mouse_handler_iteration_only_pump PyNum.sin_45_radians self) as Ht.
  destruct (mouse_handler_iteration _ self) as [[r self1] t1].
  cbn [trace snd] in Ht.
  specialize (IH (returned r) self1).
  destruct (run Notes rest false (returned r) self1) as [self2 t2].
  cbn [snd] in *. rewrite List.filter_app, Ht, IH. reflexivity.
Qed.

(** X9.  The pump does not disturb the dispatcher: under any interleaving
    of the two loops, the events of the run that are not the pump's (the
    log lines, the key events and the button events) are, in order,
    exactly those of the delivered messages handled on their own. *)
Theorem pump_does_not_disturb_dispatch
    (schedule : list step) (mouse_alive : bool) (self : MIDIator) :
  List.filter not_pump_event (snd (run Notes schedule true mouse_alive self))
    = trace (handle_messages Notes (delivered schedule) self).
Proof.
  revert mouse_alive self.
  induction schedule as [| [| m] rest IH]; intros alive self;
    cbn [run]; [reflexivity | |].
  - change (delivered (Tick :: rest)) with (delivered rest).
    destruct alive; [| apply IH].
    pose proof (mouse_handler_iteration_only_pump PyNum.sin_45_radians self)
      as Ht.
    pose proof (mouse_handler_iteration_final PyNum.sin_45_radians self) as Hf.
    destruct (mouse_handler_iteration _ self) as [[r self1] t1].
    cbn [trace final fst snd] in Ht, Hf. subst self1.
    specialize (IH (returned r) self).
    destruct (run Notes rest true (returned r) self) as [self2 t2].
    cbn [snd] in *. rewrite List.filter_app, Ht, IH. reflexivity.
  - change (delivered (Deliver m :: rest)) with (m :: delivered rest).
    rewrite handle_messages_cons.
    pose proof (triage_message_not_pump m self) as Ht.
    destruct (triage_message Notes m self) as [[[[] | e] self1] t1];
      cbn [returned trace snd] in *.
    + specialize (IH alive self1).
      destruct (run Notes rest true alive self1) as [self2 t2].
      destruct (handle_messages Notes (delivered rest) self1)
        as [[r3 self3] t3].
      cbn [trace snd] in *. rewrite List.filter_app, Ht, IH. reflexivity.
    + pose proof (run_main_ended_only_pump rest alive self1) as Hd.
      destruct (run Notes rest false alive self1) as [self2 t2].
      cbn [snd] in *. rewrite List.filter_app, Ht, Hd. apply app_nil_r.
Qed.

(** Every dispatch leaves the object as it was but for the vector. *)
Lemma triage_message_keeps_configuration self0 message self :
  (exists v, self = set_mouse_vector v self0) ->
  exists v, final (triage_message Notes message self) = set_mouse_vector v self0.
Proof.
  intros [v ->]. rewrite triage_message_final. eexists. reflexivity.
Qed.

Lemma run_keeps_configuration schedule main_alive mouse_alive self :
  exists v,
    fst (run Notes schedule main_alive mouse_alive self)
      = set_mouse_vector v self.
Proof.
  destruct main_alive.
  - rewrite run_final.
    apply (handle_messages_preserves Notes
             (fun self' => exists v, self' = set_mouse_vector v self)).
    + intros message self1. apply triage_message_keeps_configuration.
    + exists (mouse_vector self). symmetry. apply set_mouse_vector_id.
  - rewrite run_main_ended. exists (mouse_vector self). symmetry.
    apply set_mouse_vector_id.
Qed.

(** X10.  The script never writes to its configuration: once the
    constructor has succeeded, the object at the end of the run still
    holds the three tables, the channel, the sensitivity, the refresh
    period and the verbosity the constructor was given, under every
    interleaving of the two loops and whatever was delivered, also when a
    thread ended on an exception.  Only [mouse_vector] is ever
    assigned. *)
Theorem main_keeps_configuration
    (get_input_names : outcome (list string))
    (open_input : string -> outcome Port)
    (identifier : string)
    (kb : gmap Z DICodes) (mb : gmap Z MouseDirections)
    (bb : gmap Z (MouseFlags * MouseFlags))
    (ch sens : Z) (rf : PyNum.float) (vb : bool)
    (schedule : list step) (self' : MIDIator) (t : list event) :
  main Notes get_input_names open_input identifier kb mb bb ch sens rf vb
       schedule = (Ret self', t) ->
  key_binds self' = kb /\ mouse_movement_binds self' = mb /\
  mouse_button_binds self' = bb /\ midi_channel self' = ch /\
  mouse_sensitivity self' = sens /\ mouse_refresh self' = rf /\
  verbose self' = vb.
Proof.
  unfold main, __init__, start.
  destruct (midi_io.find_device get_input_names open_input identifier)
    as [[port | e] t1]; [| discriminate].
  match goal with
  | |- context [run Notes schedule true true ?s] =>
      destruct (run_keeps_configuration schedule true true s) as [v Hv];
      destruct (run Notes schedule true true s) as [self1 t2]
  end.
  cbn [fst] in Hv. intros [= <- _]. rewrite Hv. repeat split.
Qed.

Lemma log_if_quiet text end_ : log_if false text end_ = [].
Proof. reflexivity. Qed.

(** With [verbose] off the dispatcher prints nothing. *)
Lemma triage_message_quiet message self :
  verbose self = false ->
  List.filter is_print (trace (triage_message Notes message self)) = [].
Proof.
  intros Hv.
  destruct (passes_filter self message) eqn:Hp;
    [| rewrite (triage_message_reject _ _ _ Hp); reflexivity].
  destruct (Notes (note message)) as [name |] eqn:Hn;
    destruct (is_note_on message) eqn:Hon.
  3:{ rewrite (triage_message_unnamed _ _ _ Hp Hon Hn). reflexivity. }
  all: rewrite triage_message_accept;
         [| assumption | rewrite ?Hn, ?Hon; eauto; discriminate].
  all: unfold trace; cbn [snd]; unfold announced, dispatched;
       rewrite ?Hn, Hon, ?Hv.
  all: destruct (key_binds self !! note message);
         [| destruct (mouse_movement_binds self !! note message);
            [| destruct (mouse_button_binds self !! note message)]];
       reflexivity.
Qed.

Lemma mouse_handler_iteration_quiet sin_45 self :
  List.filter is_print (trace (mouse_handler_iteration sin_45 self)) = [].
Proof.
  unfold mouse_handler_iteration. rewrite bind_get.
  destruct (mouse_vector self) as [x y].
  destruct ((Z.abs x =? Z.abs y) && negb (x =? 0)); [| reflexivity].
  unfold bind, lift, ret, raise, emit, get, trace.
  destruct (PyNum.mul (PyNum.PyInt x) (PyNum.PyFloat sin_45)) as [x' | e];
    [| reflexivity].
  destruct (PyNum.mul (PyNum.PyInt y) (PyNum.PyFloat sin_45)) as [y' | e];
    [| reflexivity].
  cbn [fst snd].
  destruct (PyNum.int x') as [xi | e]; [| reflexivity].
  destruct (PyNum.int y') as [yi | e]; reflexivity.
Qed.

Lemma run_quiet schedule : forall main_alive mouse_alive self,
  verbose self = false ->
  List.filter is_print (snd (run Notes schedule main_alive mouse_alive self))
    = [].
Proof.
  induction schedule as [| [| m] rest IH]; intros a b self Hv;
    cbn [run]; [reflexivity | |].
  - destruct b; [| apply IH, Hv].
    pose proof (mouse_handler_iteration_quiet PyNum.sin_45_radians self) as Ht.
    pose proof (mouse_handler_iteration_final PyNum.sin_45_radians self) as Hf.
    destruct (mouse_handler_iteration _ self) as [[r self1] t1].
    cbn [trace final fst snd] in Ht, Hf. subst self1.
    specialize (IH a (returned r) self Hv).
    destruct (run Notes rest a (returned r) self) as [self2 t2].
    cbn [snd] in *. rewrite List.filter_app, Ht, IH. reflexivity.
  - destruct a; [| apply IH, Hv].
    pose proof (triage_message_quiet m self Hv) as Ht.
    pose proof (triage_message_final Notes m self) as Hf. cbn zeta in Hf.
    destruct (triage_message Notes m self) as [[r self1] t1].
    cbn [trace final result fst snd] in Ht, Hf.
    assert (Hv1 : verbose self1 = false) by (rewrite Hf; exact Hv).
    specialize (IH (returned r) b self1 Hv1).
    destruct (run Notes rest (returned r) b self1) as [self2 t2].
    cbn [snd] in *. rewrite List.filter_app, Ht, IH. reflexivity.
Qed.

(** X11.  [verbose=False] silences the engine, not the fatal error of the
    device search: a script constructed with [verbose] off prints nothing
    when the device is found, neither in the constructor nor in [start]
    nor in any dispatch; when [find_device] fails, what it printed before
    exiting is all that is printed. *)
Theorem verbose_off_prints_only_the_device_error
    (get_input_names : outcome (list string))
    (open_input : string -> outcome Port)
    (identifier : string)
    (kb : gmap Z DICodes) (mb : gmap Z MouseDirections)
    (bb : gmap Z (MouseFlags * MouseFlags))
    (ch sens : Z) (rf : PyNum.float) (schedule : list step) :
  let r := main Notes get_input_names open_input identifier kb mb bb ch sens
                rf false schedule in
  (returned (fst r) = true -> List.filter is_print (snd r) = []) /\
  (returned (fst r) = false ->
   snd r = snd (midi_io.find_device get_input_names open_input identifier)).
Proof.
  cbn zeta. unfold main, __init__, start.
  destruct (midi_io.find_device get_input_names open_input identifier)
    as [[port | e] t1] eqn:Hfd.
  - match goal with
    | |- context [run Notes schedule true true ?s] =>
        pose proof (run_quiet schedule true true s eq_refl) as Hq;
        destruct (run Notes schedule true true s) as [self1 t2]
    end.
    cbn [fst snd verbose log_if app returned] in *.
    split; [| discriminate]. intros _.
    assert (Ht1 : t1 = []).
    { unfold midi_io.find_device in Hfd.
      destruct (match get_input_names with
                | Ret names => midi_io.find_device_for open_input identifier names
                | Raise e => Some (Raise e)
                end) as [[p | []] |]; congruence. }
    subst t1. rewrite app_nil_r. exact Hq.
  - cbn [fst snd log_if app returned]. split; [discriminate | reflexivity].
Qed.
End Threads.

(** ** More on the pump *)

Section PumpMore.
Import mido windows_enums midiator statements further.

Lemma binary_round_aux_opp s m e l :
  binary_round_aux PyNum.prec PyNum.emax (negb s) m e l
    = SFopp (binary_round_aux PyNum.prec PyNum.emax s m e l).
Proof.
  unfold binary_round_aux.
  destruct (shr_fexp PyNum.prec PyNum.emax m e l) as [mrs' e'].
  destruct (shr_fexp PyNum.prec PyNum.emax _ e' loc_Exact) as [mrs'' e''].
  destruct (shr_m mrs'') as [| p | p]; [reflexivity | | reflexivity].
  destruct (Z.leb e'' _); reflexivity.
Qed.

Lemma float_of_int_opp z :
  z <> 0 ->
  PyNum.float_of_int (- z) =
    match PyNum.float_of_int z with
    | Ret f => Ret (SFopp f)
    | Raise e => Raise e
    end.
Proof.
  intros Hz. destruct z as [| p | p]; [contradiction | |].
  - change (- Z.pos p) with (Z.neg p).
    unfold PyNum.float_of_int, binary_normalize, binary_round.
    destruct (shl_align _ _ _) as [mz ez].
    change true with (negb false). rewrite binary_round_aux_opp.
    destruct (binary_round_aux _ _ false _ _ _); reflexivity.
  - change (- Z.neg p) with (Z.pos p).
    unfold PyNum.float_of_int, binary_normalize, binary_round.
    destruct (shl_align _ _ _) as [mz ez].
    change false with (negb true). rewrite binary_round_aux_opp.
    destruct (binary_round_aux _ _ true _ _ _); reflexivity.
Qed.

Lemma float_mul_opp f g :
  PyNum.float_mul (SFopp f) g = SFopp (PyNum.float_mul f g).
Proof.
  unfold PyNum.float_mul, SFmul.
  destruct f as [sf | sf | | sf mf ef], g as [sg | sg | | sg mg eg];
    cbn [SFopp]; try reflexivity;
    try (destruct sf, sg; reflexivity).
  replace (xorb (negb sf) sg) with (negb (xorb sf sg))
    by (destruct sf, sg; reflexivity).
  apply binary_round_aux_opp.
Qed.

Lemma int_of_float_opp f :
  PyNum.int_of_float (SFopp f) = opp_outcome (PyNum.int_of_float f).
Proof.
  destruct f as [s | s | | s m e]; cbn [SFopp PyNum.int_of_float opp_outcome];
    try reflexivity.
  destruct s; cbn [negb]; f_equal; lia.
Qed.

(** Scaling commutes with the change of sign. *)
Lemma scaled_opp sin_45 z :
  z <> 0 -> scaled sin_45 (- z) = opp_outcome (scaled sin_45 z).
Proof.
  intros Hz. unfold scaled, PyNum.mul. rewrite (float_of_int_opp z Hz).
  destruct (PyNum.float_of_int z) as [f | e]; [| reflexivity].
  cbn [PyNum.int]. rewrite float_mul_opp. apply int_of_float_opp.
Qed.

(** The iteration on the diagonal, in terms of [scaled]. *)
Lemma mouse_handler_iteration_diagonal sin_45 self x y :
  mouse_vector self = (x, y) ->
  (Z.abs x =? Z.abs y) && negb (x =? 0) = true ->
  mouse_handler_iteration sin_45 self =
    match scaled sin_45 x, scaled sin_45 y with
    | Ret xi, Ret yi =>
        (Ret tt, self,
         [send_mouse_movement_event xi yi; time_sleep (mouse_refresh self)])
    | Ret _, Raise e => (Raise e, self, [])
    | Raise e, _ =>
        match PyNum.mul (PyNum.PyInt x) (PyNum.PyFloat sin_45),
              PyNum.mul (PyNum.PyInt y) (PyNum.PyFloat sin_45) with
        | Ret _, Raise e' => (Raise e', self, [])
        | _, _ => (Raise e, self, [])
        end
    end.
Proof.
  intros Hv Hg. unfold mouse_handler_iteration, scaled.
  rewrite bind_get, Hv, Hg. unfold bind, lift, ret, raise, emit, get.
  destruct (PyNum.mul (PyNum.PyInt x) (PyNum.PyFloat sin_45)) as [x' | e];
    [| reflexivity].
  destruct (PyNum.mul (PyNum.PyInt y) (PyNum.PyFloat sin_45)) as [y' | e].
  - cbn [fst snd].
    destruct (PyNum.int x') as [xi | e]; [| destruct (PyNum.int y'); reflexivity].
    destruct (PyNum.int y') as [yi | e]; reflexivity.
  - destruct (PyNum.int x'); reflexivity.
Qed.

Lemma guard_opp x y :
  (Z.abs (- x) =? Z.abs (- y)) && negb (- x =? 0)
    = (Z.abs x =? Z.abs y) && negb (x =? 0).
Proof.
  rewrite !Z.abs_opp. f_equal. f_equal.
  destruct (Z.eqb_spec x 0), (Z.eqb_spec (- x) 0); try reflexivity; lia.
Qed.

Lemma guard_swap x y :
  (Z.abs y =? Z.abs x) && negb (y =? 0)
    = (Z.abs x =? Z.abs y) && negb (x =? 0).
Proof.
  destruct (Z.eqb_spec (Z.abs x) (Z.abs y)), (Z.eqb_spec (Z.abs y) (Z.abs x));
    try lia; cbn [andb]; reflexivity.
Qed.

(** X12.  The pump has no directional bias.  If an iteration at the
    vector (x, y) sends (xi, yi), then at (-x, -y) it sends (-xi, -yi), and
    at (y, x) it sends (yi, xi): [int()] truncates toward zero and the
    float product is symmetric in the sign, so left and up move as fast as
    right and down, whatever the factor. *)
Theorem pump_is_symmetric
    (sin_45 : PyNum.float) (self : MIDIator) (x y xi yi : Z) :
  mouse_handler_iteration sin_45 (set_mouse_vector (x, y) self) =
    (Ret tt, set_mouse_vector (x, y) self,
     [send_mouse_movement_event xi yi; time_sleep (mouse_refresh self)]) ->
  mouse_handler_iteration sin_45 (set_mouse_vector (- x, - y) self) =
    (Ret tt, set_mouse_vector (- x, - y) self,
     [send_mouse_movement_event (- xi) (- yi);
      time_sleep (mouse_refresh self)]) /\
  mouse_handler_iteration sin_45 (set_mouse_vector (y, x) self) =
    (Ret tt, set_mouse_vector (y, x) self,
     [send_mouse_movement_event yi xi; time_sleep (mouse_refresh self)]).
Proof.
  intros H.
  destruct ((Z.abs x =? Z.abs y) && negb (x =? 0)) eqn:Hg.
  - rewrite (mouse_handler_iteration_diagonal sin_45
               (set_mouse_vector (x, y) self) x y eq_refl Hg) in H.
    rewrite (mouse_handler_iteration_diagonal sin_45
               (set_mouse_vector (- x, - y) self) (- x) (- y) eq_refl)
      by (rewrite guard_opp; exact Hg).
    rewrite (mouse_handler_iteration_diagonal sin_45
               (set_mouse_vector (y, x) self) y x eq_refl)
      by (rewrite guard_swap; exact Hg).
    apply andb_true_iff in Hg as [Habs Hx].
    apply Z.eqb_eq in Habs. apply negb_true_iff, Z.eqb_neq in Hx.
    assert (Hy : y <> 0) by lia.
    rewrite (scaled_opp sin_45 x Hx), (scaled_opp sin_45 y Hy).
    destruct (scaled sin_45 x) as [xi' | e1], (scaled sin_45 y) as [yi' | e2];
      cbn [opp_outcome].
    + injection H as -> ->. split; reflexivity.
    + discriminate H.
    + repeat case_match; discriminate H.
    + repeat case_match; discriminate H.
  - rewrite (mouse_handler_iteration_unscaled sin_45
               (set_mouse_vector (x, y) self) x y eq_refl Hg) in H.
    injection H as <- <-.
    split.
    + apply (mouse_handler_iteration_unscaled sin_45
               (set_mouse_vector (- x, - y) self) (- x) (- y) eq_refl).
      rewrite guard_opp. exact Hg.
    + apply (mouse_handler_iteration_unscaled sin_45
               (set_mouse_vector (y, x) self) y x eq_refl).
      rewrite guard_swap. exact Hg.
Qed.



Lemma scaled_in_range :
  forallb scaled_as_exact (seqZ (-4096) 8193) = true.
Proof. vm_compute. reflexivity. Qed.

Lemma scaled_as_exact_true z :
  -4096 <= z <= 4096 -> scaled_as_exact z = true.
Proof.
  intros Hz. pose proof scaled_in_range as H.
  rewrite forallb_forall in H. apply H. apply list_elem_of_In.
  apply elem_of_seqZ. lia.
Qed.

(** X14.  For every diagonal vector of up to 4096 per axis the float
    arithmetic of the pump is exact: the iteration returns and sends, on
    each axis, the product of the component with the binary64 value of
    [sin(45)] truncated toward zero.  What is sent is always smaller in
    magnitude than the component, and it is zero exactly when the
    component is 1 or -1: with a sensitivity of 1 a diagonal does not move
    the pointer at all. *)
Theorem diagonal_scaling_is_exact_in_range (self : MIDIator) (x y : Z) :
  mouse_vector self = (x, y) ->
  Z.abs x = Z.abs y -> 0 < Z.abs x <= 4096 ->
  mouse_handler 1 self =
    (Ret tt, self,
     [send_mouse_movement_event (scaled_exactly x) (scaled_exactly y);
      time_sleep (mouse_refresh self)]) /\
  Z.abs (scaled_exactly x) < Z.abs x /\
  (scaled_exactly x = 0 <-> Z.abs x = 1).
Proof.
  intros Hv Habs Hx.
  assert (Hcx := scaled_as_exact_true x ltac:(lia)).
  assert (Hcy := scaled_as_exact_true y ltac:(lia)).
  unfold scaled_as_exact in Hcx, Hcy.
  destruct (scaled PyNum.sin_45_radians x) as [xi |] eqn:Hsx; [| discriminate].
  destruct (scaled PyNum.sin_45_radians y) as [yi |] eqn:Hsy; [| discriminate].
  apply andb_true_iff in Hcx as [Hcx Hzero].
  apply andb_true_iff in Hcx as [Hex Hlt].
  apply andb_true_iff in Hcy as [Hcy _].
  apply andb_true_iff in Hcy as [Hey _].
  apply Z.eqb_eq in Hex, Hey. subst xi yi.
  split; [| split].
  - unfold mouse_handler. rewrite mouse_handler_while_succ.
    rewrite (mouse_handler_iteration_diagonal _ self x y Hv), Hsx, Hsy.
    + reflexivity.
    + apply andb_true_iff. split; [apply Z.eqb_eq; exact Habs |].
      apply negb_true_iff, Z.eqb_neq. lia.
  - apply orb_true_iff in Hlt as [Hz | Hlt]; [apply Z.eqb_eq in Hz; lia |].
    apply Z.ltb_lt. exact Hlt.
  - apply Bool.eqb_prop in Hzero.
    destruct (Z.eqb_spec (scaled_exactly x) 0) as [H0 | H0];
      symmetry in Hzero.
    + apply Z.leb_le in Hzero. split; [lia | intros _; exact H0].
    + apply Z.leb_gt in Hzero. split; [contradiction | lia].
Qed.
End PumpMore.


(** ** More on the device search *)

Section DeviceMore.
Import mido windows_enums midiator statements further midi_io.
Variable open_input : string -> outcome Port.

Lemma find_device_for_some identifier names r :
  find_device_for open_input identifier names = Some r ->
  exists before name after,
    names = before ++ name :: after /\
    Forall (fun p => ~ ci_substring identifier p) before /\
    ci_substring identifier name /\
    r = open_input name.
Proof.
  induction names as [| p rest IH]; [discriminate |].
  cbn [find_device_for].
  destruct (PyStr.contains _ _) eqn:Hc.
  - intros [= <-]. exists [], p, rest. repeat split.
    + constructor.
    + apply contains_lower_iff. exact Hc.
  - intros H. destruct (IH H) as (before & name & after & -> & Hb & Hn & ->).
    exists (p :: before), name, after. repeat split; try assumption.
    constructor; [| exact Hb].
    intros Hp. apply contains_lower_iff in Hp. congruence.
Qed.


(** X16.  Every failure of the search that the function handles ends the
    process with status 1 after one printed line: a backend error while
    enumerating or opening ([SystemError], [OSError]) and the absence of a
    match.  Only an exception of another kind escapes as it is. *)
Theorem find_device_fails_with_status_1
    (get_input_names : outcome (list string))
    (identifier : string) (e : exn) (t : list event) :
  find_device get_input_names open_input identifier = (Raise e, t) ->
  (e = SystemExit 1 /\
   (t = [print (not_a_device identifier)]
    \/ t = [print (device_in_use identifier)])) \/
  (t = [] /\ e <> SystemError /\ e <> OSError /\
   (get_input_names = Raise e \/ exists name, open_input name = Raise e)).
Proof.
  unfold find_device. destruct get_input_names as [names | e0].
  - destruct (find_device_for open_input identifier names) as [r |] eqn:Hf.
    + destruct (find_device_for_some _ _ _ Hf)
        as (before & name & after & -> & Hb & Hn & ->).
      destruct (open_input name) as [p | e1] eqn:Ho; [discriminate |].
      destruct e1; intros [= <- <-]; eauto 10;
        right; repeat split; try discriminate; right; exists name; exact Ho.
    + intros [= <- <-]. left. eauto.
  - destruct e0; intros [= <- <-]; eauto 10;
      right; repeat split; try discriminate; left; reflexivity.
Qed.


End DeviceMore.


(** ** The enum of key codes and the structures sent to Windows *)

Section Windows.
Import windows_enums.

Lemma DICodes_eqb_eq (a b : DICodes) :
  DICodes_enum.DICodes_eqb a b = true -> a = b.
Proof.
  unfold DICodes_enum.DICodes_eqb. destruct a as [na va], b as [nb vb].
  cbn [DI_name DI_value]. intros H. apply andb_true_iff in H as [Hn Hv].
  apply String.eqb_eq in Hn. apply Z.eqb_eq in Hv. congruence.
Qed.

Lemma members_ok :
  forallb DICodes_enum.member_ok DICodes_enum.members = true.
Proof. vm_compute. reflexivity. Qed.

Lemma member_ok_spec (k : DICodes) :
  In k DICodes_enum.members ->
  DICodes_enum.of_value (DI_value k) = Some k /\
  DICodes_enum.of_name (DI_name k) = Some k /\
  0 < DI_value k < 2 ^ 8.
Proof.
  intros Hin. pose proof members_ok as H. rewrite forallb_forall in H.
  specialize (H k Hin). unfold DICodes_enum.member_ok in H.
  destruct (DICodes_enum.of_value (DI_value k)) as [a |]; [| discriminate].
  destruct (DICodes_enum.of_name (DI_name k)) as [b |]; [| discriminate].
  apply andb_true_iff in H as [H Hhi]. apply andb_true_iff in H as [H Hlo].
  apply andb_true_iff in H as [Ha Hb].
  apply DICodes_eqb_eq in Ha, Hb. subst a b.
  apply Z.ltb_lt in Hlo, Hhi. repeat split; assumption.
Qed.

(** X18.  [DICodes] has no aliases: its 144 members have pairwise
    different values and names, so that looking a member up by its value
    or by its name gives the member back (and the [.name] that the log
    prints is the one the configuration used); every value is a positive
    number below 256. *)
Theorem DICodes_has_no_alias :
  length DICodes_enum.members = 144%nat /\
  (forall k, In k DICodes_enum.members ->
     DICodes_enum.of_value (DI_value k) = Some k /\
     DICodes_enum.of_name (DI_name k) = Some k /\
     0 < DI_value k < 2 ^ 8) /\
  (forall a b, In a DICodes_enum.members -> In b DICodes_enum.members ->
     DI_value a = DI_value b \/ DI_name a = DI_name b -> a = b).
Proof.
  split; [reflexivity |]. split; [exact member_ok_spec |].
  intros a b Ha Hb [Hv | Hn].
  - destruct (member_ok_spec a Ha) as (Hra & _ & _).
    destruct (member_ok_spec b Hb) as (Hrb & _ & _).
    rewrite Hv in Hra. congruence.
  - destruct (member_ok_spec a Ha) as (_ & Hra & _).
    destruct (member_ok_spec b Hb) as (_ & Hrb & _).
    rewrite Hn in Hra. congruence.
Qed.


End Windows.


(** * The further properties on the concrete configuration *)

Lemma handler_on_missing_key_raises_witness :
  midiator.key_binds example.midiator !! 1 = None /\
  midiator.result (midiator.translate_keystroke (example.on 1)
                     example.midiator) = Raise KeyError.
Proof.
  assert (Hk : midiator.key_binds example.midiator
                 !! mido.note (example.on 1) = None) by reflexivity.
  split; [exact Hk |].
  exact (proj1 (proj1 (handler_on_missing_key_raises (example.on 1)
                         example.midiator) Hk)).
Defined.


Lemma at_most_one_output_action_witness :
  further.moves example.midiator (example.on 67) = true /\
  output_actions
    (midiator.trace (midiator.triage_message example.Notes (example.on 67)
                       example.midiator)) = [].
Proof.
  assert (H : further.moves example.midiator (example.on 67) = true)
    by reflexivity.
  split; [exact H |].
  exact (proj2 (proj2 (at_most_one_output_action example.Notes
                         (example.on 67) example.midiator)) H).
Defined.

Lemma key_on_off_presses_then_releases_witness :
  (midiator.key_binds example.midiator !! 54
     = Some windows_enums.DICodes.W /\
   is_Some (example.Notes 54)) /\
  output_actions
    (midiator.trace
       (midiator.handle_messages example.Notes
          [example.on 54; example.off 54] example.midiator))
  = [send_key_event windows_enums.DICodes.W windows_enums.PRESS;
     send_key_event windows_enums.DICodes.W windows_enums.RELEASE].
Proof.
  assert (Hk : midiator.key_binds example.midiator !! 54
               = Some windows_enums.DICodes.W) by reflexivity.
  assert (Hn : is_Some (example.Notes 54)) by (apply named_example; reflexivity).
  split; [exact (conj Hk Hn) |].
  exact (proj2 (proj2 (key_on_off_presses_then_releases example.Notes
                         example.midiator 54 _ Hk Hn))).
Defined.

Lemma button_on_off_clicks_then_releases_witness :
  (midiator.key_binds example.midiator !! 62 = None /\
   midiator.mouse_movement_binds example.midiator !! 62 = None /\
   midiator.mouse_button_binds example.midiator !! 62
     = Some (windows_enums.LEFT_CLICK, windows_enums.LEFT_RELEASE) /\
   is_Some (example.Notes 62)) /\
  output_actions
    (midiator.trace
       (midiator.handle_messages example.Notes
          [example.on 62; example.off 62] example.midiator))
  = [send_mouse_button_event windows_enums.LEFT_CLICK;
     send_mouse_button_event windows_enums.LEFT_RELEASE].
Proof.
  assert (Hk : midiator.key_binds example.midiator !! 62 = None) by reflexivity.
  assert (Hd : midiator.mouse_movement_binds example.midiator !! 62 = None)
    by reflexivity.
  assert (Hb : midiator.mouse_button_binds example.midiator !! 62
               = Some (windows_enums.LEFT_CLICK, windows_enums.LEFT_RELEASE))
    by reflexivity.
  assert (Hn : is_Some (example.Notes 62)) by (apply named_example; reflexivity).
  split; [exact (conj Hk (conj Hd (conj Hb Hn))) |].
  exact (proj2 (proj2 (button_on_off_clicks_then_releases example.Notes
                         example.midiator 62 _ _ Hk Hd Hb Hn))).
Defined.




Lemma main_keeps_configuration_witness :
  exists self' t,
    midiator.main example.Notes example.get_input_names example.open_input
      "casio" example.default_key_binds example.default_mouse_movement_binds
      example.default_mouse_button_binds 0 5 midiator.default_mouse_refresh
      true
      [midiator.Deliver (example.on 67); midiator.Tick;
       midiator.Deliver (example.on 54); midiator.Tick;
       midiator.Deliver (example.off 67)]
    = (Ret self', t) /\
    midiator.key_binds self' = example.default_key_binds /\
    midiator.mouse_sensitivity self' = 5.
Proof.
  destruct (midiator.main example.Notes example.get_input_names
              example.open_input "casio" example.default_key_binds
              example.default_mouse_movement_binds
              example.default_mouse_button_binds 0 5
              midiator.default_mouse_refresh true
              [midiator.Deliver (example.on 67); midiator.Tick;
               midiator.Deliver (example.on 54); midiator.Tick;
               midiator.Deliver (example.off 67)])
    as [[self' | e] t] eqn:H; [| vm_compute in H; discriminate H].
  exists self', t. split; [reflexivity |].
  pose proof (main_keeps_configuration _ _ _ _ _ _ _ _ _ _ _ _ _ _ H)
    as (Hk & _ & _ & _ & Hs & _).
  exact (conj Hk Hs).
Defined.

Lemma verbose_off_prints_only_the_device_error_witness :
  (midiator.returned
     (fst (midiator.main example.Notes example.get_input_names
             example.open_input "casio" example.default_key_binds
             example.default_mouse_movement_binds
             example.default_mouse_button_binds 0 5
             midiator.default_mouse_refresh false
             [midiator.Deliver (example.on 54); midiator.Tick;
              midiator.Deliver (example.on 1)])) = true) /\
  List.filter further.is_print
    (snd (midiator.main example.Notes example.get_input_names
            example.open_input "casio" example.default_key_binds
            example.default_mouse_movement_binds
            example.default_mouse_button_binds 0 5
            midiator.default_mouse_refresh false
            [midiator.Deliver (example.on 54); midiator.Tick;
             midiator.Deliver (example.on 1)])) = [].
Proof.
  assert (H : midiator.returned
     (fst (midiator.main example.Notes example.get_input_names
             example.open_input "casio" example.default_key_binds
             example.default_mouse_movement_binds
             example.default_mouse_button_binds 0 5
             midiator.default_mouse_refresh false
             [midiator.Deliver (example.on 54); midiator.Tick;
              midiator.Deliver (example.on 1)])) = true)
    by (vm_compute; reflexivity).
  split; [exact H |].
  exact (proj1 (verbose_off_prints_only_the_device_error example.Notes
                  _ _ _ _ _ _ _ _ _ _) H).
Defined.

Lemma pump_is_symmetric_witness :
  midiator.mouse_handler_iteration PyNum.sin_45_radians
    (midiator.set_mouse_vector (4, 4) example.midiator)
  = (Ret tt, midiator.set_mouse_vector (4, 4) example.midiator,
     [send_mouse_movement_event 3 3;
      time_sleep (midiator.mouse_refresh example.midiator)]) /\
  midiator.mouse_handler_iteration PyNum.sin_45_radians
    (midiator.set_mouse_vector (- 4, - 4) example.midiator)
  = (Ret tt, midiator.set_mouse_vector (- 4, - 4) example.midiator,
     [send_mouse_movement_event (- 3) (- 3);
      time_sleep (midiator.mouse_refresh example.midiator)]).
Proof.
  assert (H : midiator.mouse_handler_iteration PyNum.sin_45_radians
                (midiator.set_mouse_vector (4, 4) example.midiator)
              = (Ret tt, midiator.set_mouse_vector (4, 4) example.midiator,
                 [send_mouse_movement_event 3 3;
                  time_sleep (midiator.mouse_refresh example.midiator)]))
    by (vm_compute; reflexivity).
  split; [exact H |].
  exact (proj1 (pump_is_symmetric PyNum.sin_45_radians example.midiator
                  4 4 3 3 H)).
Defined.


Lemma diagonal_scaling_is_exact_in_range_witness :
  (midiator.mouse_vector
     (midiator.set_mouse_vector (5, - 5) example.midiator) = (5, - 5) /\
   Z.abs 5 = Z.abs (- 5) /\ 0 < Z.abs 5 <= 4096) /\
  midiator.mouse_handler 1
    (midiator.set_mouse_vector (5, - 5) example.midiator)
  = (Ret tt, midiator.set_mouse_vector (5, - 5) example.midiator,
     [send_mouse_movement_event (further.scaled_exactly 5)
        (further.scaled_exactly (- 5));
      time_sleep (midiator.mouse_refresh example.midiator)]).
Proof.
  assert (Hv : midiator.mouse_vector
                 (midiator.set_mouse_vector (5, - 5) example.midiator)
               = (5, - 5)) by reflexivity.
  assert (Ha : Z.abs 5 = Z.abs (- 5)) by reflexivity.
  assert (Hr : 0 < Z.abs 5 <= 4096) by (cbn; lia).
  split; [exact (conj Hv (conj Ha Hr)) |].
  exact (proj1 (diagonal_scaling_is_exact_in_range _ 5 (- 5) Hv Ha Hr)).
Defined.


Lemma find_device_fails_with_status_1_witness :
  midi_io.find_device example.get_input_names further.busy_open_input "casio"
    = (Raise (SystemExit 1), [print (midi_io.device_in_use "casio")]) /\
  ((SystemExit 1 = SystemExit 1 /\
    ([print (midi_io.device_in_use "casio")]
       = [print (midi_io.not_a_device "casio")]
     \/ [print (midi_io.device_in_use "casio")]
       = [print (midi_io.device_in_use "casio")])) \/
   ([print (midi_io.device_in_use "casio")] = [] /\
    SystemExit 1 <> SystemError /\ SystemExit 1 <> OSError /\
    (example.get_input_names = Raise (SystemExit 1) \/
     exists name, further.busy_open_input name = Raise (SystemExit 1)))).
Proof.
  assert (H : midi_io.find_device example.get_input_names
                further.busy_open_input "casio"
              = (Raise (SystemExit 1),
                 [print (midi_io.device_in_use "casio")])) by reflexivity.
  split; [exact H |].
  exact (find_device_fails_with_status_1 further.busy_open_input
           example.get_input_names "casio" _ _ H).
Defined.


Lemma DICodes_has_no_alias_witness :
  In windows_enums.DICodes.LSHIFT DICodes_enum.members /\
  DICodes_enum.of_value
    (windows_enums.DI_value windows_enums.DICodes.LSHIFT)
  = Some windows_enums.DICodes.LSHIFT /\
  DICodes_enum.of_name
    (windows_enums.DI_name windows_enums.DICodes.LSHIFT)
  = Some windows_enums.DICodes.LSHIFT.
Proof.
  assert (Hin : In windows_enums.DICodes.LSHIFT DICodes_enum.members).
  { apply (nth_error_In _ 41). reflexivity. }
  split; [exact Hin |].
  pose proof (proj1 (proj2 DICodes_has_no_alias) _ Hin) as (Hv & Hn & _).
  exact (conj Hv Hn).
Defined.

